(** * Energy-Data-Collector: a shallow embedding of [energy_monitor.py]

    The script fetches the actual total load of a bidding zone from ENTSO-E
    (an XML document), the latest carbon intensity from Electricity Maps
    (a JSON object) and a stub price, derives manufacturing energy, CO2 and
    cost per load point and writes the batch to InfluxDB.

    The embedding keeps the shape of the Python code:
    - Python exceptions are an inductive type [exn]; code that may raise
      returns an [outcome]; code that also logs, calls the network or the
      database runs in the monad [M], which records the events it performs;
    - Python floats are IEEE 754 binary64 values ([spec_float] of the
      Standard Library at precision 53), multiplied with [SFmul];
    - [datetime] arithmetic follows CPython's proleptic Gregorian ordinals;
    - [xml.etree.ElementTree] elements are a tree of tag, text and children,
      searched with the ElementPath steps the code uses;
    - the outside world (clock, the two HTTP services, the InfluxDB client)
      is a record of replies, [World]. *)

From Stdlib Require Import ZArith List String Ascii Bool Lia.
From Stdlib Require Import DecimalString.
From Stdlib Require Import Floats.SpecFloat.
Import ListNotations.
Local Open Scope Z_scope.
Local Set Warnings "-register-all".

(** ** Exceptions and outcomes *)

(** The subclasses of [requests.RequestException] the script can meet.
    [JSONDecodeError] is [requests.exceptions.JSONDecodeError], raised by
    [Response.json()]; since requests 2.27 it derives from
    [InvalidJSONError], a [RequestException]. *)
Inductive request_failure : Type :=
| ConnectionError
| Timeout
| TooManyRedirects
| HTTPError (status : Z)
| JSONDecodeError.

(** Exceptions, all of them subclasses of Python's [Exception].
    [ParseError] is [xml.etree.ElementTree.ParseError]; [ClientError] stands
    for whatever the InfluxDB client raises. *)
Inductive exn : Type :=
| RequestException (k : request_failure)
| ParseError
| AttributeError
| TypeError
| ValueError
| OverflowError
| ClientError (msg : string).

Inductive outcome (A : Type) : Type :=
| Return (a : A)
| Raise (e : exn).
Arguments Return {A} a.
Arguments Raise {A} e.

Definition bindO {A B : Type} (o : outcome A) (k : A -> outcome B) : outcome B :=
  match o with
  | Return a => k a
  | Raise e => Raise e
  end.

Notation "'let?' x ':=' o 'in' k" := (bindO o (fun x => k))
  (at level 10, x name, o at level 100, k at level 200).

(** ** Floats *)

(** Python's [float] is the C double: binary64. *)
Definition prec : Z := 53.
Definition emax : Z := 1024.
Definition float64 : Type := spec_float.

Definition fmul (x y : float64) : float64 := SFmul prec emax x y.

(** [float(z)] for a Python int: correctly rounded, [OverflowError] when the
    integer is too large for a double. *)
Definition float_of_int (z : Z) : outcome float64 :=
  match binary_normalize prec emax z 0 false with
  | S754_infinity _ => Raise OverflowError
  | f => Return f
  end.

(** The double nearest to the literal [0.23] (0x1.d70a3d70a3d71p-3). *)
Definition manufacturing_factor : float64 :=
  S754_finite false 8286623314361713 (-55).

(** The double nearest to the literal [0.10] (0x1.999999999999ap-4). *)
Definition example_price : float64 :=
  S754_finite false 7205759403792794 (-56).

Definition is_finite (x : float64) : bool :=
  match x with
  | S754_zero _ | S754_finite _ _ _ => true
  | S754_infinity _ | S754_nan => false
  end.

(** Python's [x == 0] on a float: both signed zeros, nothing else. *)
Definition is_zero (x : float64) : bool :=
  match x with
  | S754_zero _ => true
  | _ => false
  end.

(** ** Python values *)

Inductive number : Type :=
| Int (z : Z)
| Float (f : float64).

(** What [json] decoding yields, and so what [dict.get] can return. A dict
    is its list of items; lookup takes the first item with the key. *)
Inductive pyval : Type :=
| PyNone
| PyBool (b : bool)
| PyNum (n : number)
| PyStr (s : string)
| PyList (l : list pyval)
| PyDict (d : list (string * pyval)).

Fixpoint dict_lookup (d : list (string * pyval)) (key : string) : option pyval :=
  match d with
  | [] => None
  | (k, v) :: d' => if String.eqb k key then Some v else dict_lookup d' key
  end.

(** [d.get(key, default)]. *)
Definition dict_get (d : list (string * pyval)) (key : string) (default : pyval) : pyval :=
  match dict_lookup d key with
  | Some v => v
  | None => default
  end.

(** [float.__mul__] first turns its right operand into a double: an [int]
    (or [bool]) is converted, a float is taken as it is, anything else makes
    the product a [TypeError]. *)
Definition number_value (n : number) : outcome float64 :=
  match n with
  | Float y => Return y
  | Int z => float_of_int z
  end.

Definition as_double (v : pyval) : outcome float64 :=
  match v with
  | PyNum n => number_value n
  | PyBool b => number_value (Int (Z.b2z b))
  | PyNone | PyStr _ | PyList _ | PyDict _ => Raise TypeError
  end.

(** [x * n] for a float [x] and a Python number [n]. *)
Definition mul_number (x : float64) (n : number) : outcome float64 :=
  let? y := number_value n in Return (fmul x y).

(** [x * v] for a float [x] and any Python value [v]. *)
Definition mul_float (x : float64) (v : pyval) : outcome float64 :=
  let? y := as_double v in Return (fmul x y).

(** ** datetime *)

(** An aware or naive [datetime]; [utcoffset] is the fixed offset of its
    [tzinfo] in microseconds ([Some 0] for [timezone.utc]). *)
Record datetime : Type := mkdatetime {
  year : Z; month : Z; day : Z;
  hour : Z; minute : Z; second : Z; microsecond : Z;
  utcoffset : option Z
}.

Definition MAXORDINAL : Z := 3652059.
Definition DI400Y : Z := 146097.
Definition DI100Y : Z := 36524.
Definition DI4Y : Z := 1461.

Definition is_leap (y : Z) : bool :=
  (y mod 4 =? 0) && (negb (y mod 100 =? 0) || (y mod 400 =? 0)).

Definition DAYS_IN_MONTH : list Z :=
  [-1; 31; 28; 31; 30; 31; 30; 31; 31; 30; 31; 30; 31].

Definition DAYS_BEFORE_MONTH : list Z :=
  [-1; 0; 31; 59; 90; 120; 151; 181; 212; 243; 273; 304; 334].

Definition days_before_year (y : Z) : Z :=
  let y := y - 1 in y * 365 + y / 4 - y / 100 + y / 400.

Definition days_in_month (y m : Z) : Z :=
  if (m =? 2) && is_leap y then 29 else nth (Z.to_nat m) DAYS_IN_MONTH 0.

Definition days_before_month (y m : Z) : Z :=
  nth (Z.to_nat m) DAYS_BEFORE_MONTH 0 + Z.b2z ((2 <? m) && is_leap y).

Definition ymd2ord (y m d : Z) : Z :=
  days_before_year y + days_before_month y m + d.

(** CPython's [_ord2ymd]. *)
Definition ord2ymd (n : Z) : Z * Z * Z :=
  let n := n - 1 in
  let n400 := n / DI400Y in let n := n mod DI400Y in
  let y := n400 * 400 + 1 in
  let n100 := n / DI100Y in let n := n mod DI100Y in
  let n4 := n / DI4Y in let n := n mod DI4Y in
  let n1 := n / 365 in let n := n mod 365 in
  let y := y + n100 * 100 + n4 * 4 + n1 in
  if (n1 =? 4) || (n100 =? 4) then (y - 1, 12, 31)
  else
    let leapyear := (n1 =? 3) && (negb (n4 =? 24) || (n100 =? 3)) in
    let m := Z.shiftr (n + 50) 5 in
    let preceding := nth (Z.to_nat m) DAYS_BEFORE_MONTH 0 + Z.b2z ((2 <? m) && leapyear) in
    if n <? preceding then
      let m := m - 1 in
      let preceding :=
        preceding - (nth (Z.to_nat m) DAYS_IN_MONTH 0 + Z.b2z ((m =? 2) && leapyear)) in
      (y, m, n - preceding + 1)
    else (y, m, n - preceding + 1).

Definition toordinal (dt : datetime) : Z := ymd2ord (year dt) (month dt) (day dt).

(** [dt.replace(hour=h, minute=mi, second=s, microsecond=us)]. *)
Definition replace_time (dt : datetime) (h mi s us : Z) : datetime :=
  mkdatetime (year dt) (month dt) (day dt) h mi s us (utcoffset dt).

(** [timedelta(days=d)]: the constructor refuses more than 999999999 days. *)
Definition timedelta_days (d : Z) : outcome Z :=
  if 999999999 <? Z.abs d then Raise OverflowError else Return d.

(** [dt - timedelta(days=d)]: the date moves by whole days, the time of day
    and the tzinfo stay; a date outside years 1..9999 is an [OverflowError]. *)
Definition sub_days (dt : datetime) (d : Z) : outcome datetime :=
  let? delta := timedelta_days d in
  let days := toordinal dt - delta in
  if (0 <? days) && (days <=? MAXORDINAL) then
    let '(y, m, d') := ord2ymd days in
    Return (mkdatetime y m d' (hour dt) (minute dt) (second dt) (microsecond dt)
                       (utcoffset dt))
  else Raise OverflowError.

(** *** [isoformat] *)

Definition decimal (n : Z) : string := NilZero.string_of_uint (N.to_uint (Z.to_N n)).

Fixpoint zeros (n : nat) : string :=
  match n with
  | O => EmptyString
  | S n' => String "0"%char (zeros n')
  end.

(** ["%0<width>d" % n] for a non-negative [n]. *)
Definition zfill (width : nat) (n : Z) : string :=
  let s := decimal n in
  (zeros (width - String.length s) ++ s)%string.

Definition format_time (dt : datetime) : string :=
  (zfill 2 (hour dt) ++ ":" ++ zfill 2 (minute dt) ++ ":" ++ zfill 2 (second dt)
   ++ (if (microsecond dt =? 0)%Z then "" else "." ++ zfill 6 (microsecond dt)))%string.

Definition format_offset (off : option Z) : string :=
  match off with
  | None => ""%string
  | Some us =>
      let sign := if us <? 0 then "-"%string else "+"%string in
      let us := Z.abs us in
      let hh := us / 3600000000 in
      let r := us mod 3600000000 in
      let mm := r / 60000000 in
      let ss := r mod 60000000 in
      (sign ++ zfill 2 hh ++ ":" ++ zfill 2 mm
       ++ (if (ss =? 0)%Z then ""
           else ":" ++ zfill 2 (ss / 1000000)%Z
                ++ (if (ss mod 1000000 =? 0)%Z then ""
                    else "." ++ zfill 6 (ss mod 1000000)%Z)))%string
  end.

Definition isoformat (dt : datetime) : string :=
  (zfill 4 (year dt) ++ "-" ++ zfill 2 (month dt) ++ "-" ++ zfill 2 (day dt) ++ "T"
   ++ format_time dt ++ format_offset (utcoffset dt))%string.

(** *** The collection window (lines 164-168 of the module-level function) *)

Definition window (today_utc : datetime) (days_to_collect : Z)
  : outcome (datetime * datetime) :=
  let? end_utc := sub_days (replace_time today_utc 0 0 0 0) 1 in
  let end_utc := replace_time end_utc 23 59 59 999999 in
  let? start_utc := sub_days end_utc (days_to_collect - 1) in
  let start_utc := replace_time start_utc 0 0 0 0 in
  Return (start_utc, end_utc).

Definition utc (y m d h mi s us : Z) : datetime := mkdatetime y m d h mi s us (Some 0).

(** The time of day of a [datetime]. *)
Definition time_of (dt : datetime) : Z * Z * Z * Z :=
  (hour dt, minute dt, second dt, microsecond dt).

(** [dt.strftime("%Y%m%d%H%M")], the ENTSO-E period format. *)
Definition strftime_period (dt : datetime) : string :=
  (zfill 4 (year dt) ++ zfill 2 (month dt) ++ zfill 2 (day dt)
   ++ zfill 2 (hour dt) ++ zfill 2 (minute dt))%string.

(** ** The builtins that read text *)

(** [float(s)] and [datetime.fromisoformat(s)] on a string belong to the
    interpreter, not to the script: the embedding takes them as an
    interface. [None] is their [ValueError]. *)
Class CPython : Type := {
  float_of_str : string -> option float64;
  fromisoformat : string -> option datetime
}.

(** ** ElementTree *)

Inductive Element : Type :=
  mkElement { tag : string; text : option string; children : list Element }.

(** [e.iter(t)]: [e] itself and its descendants with tag [t], in document
    order. *)
Fixpoint iter (t : string) (e : Element) : list Element :=
  match e with
  | mkElement tg _ ch =>
      (if String.eqb tg t then [e] else []) ++ flat_map (iter t) ch
  end.

(** The ElementPath step [.//t] from [e]: [e.iter(t)] without [e] itself. *)
Definition descendant (t : string) (e : Element) : list Element :=
  flat_map (iter t) (children e).

(** The ElementPath step [/t]: the children with tag [t]. *)
Definition child (t : string) (e : Element) : list Element :=
  filter (fun c => String.eqb (tag c) t) (children e).

Definition namespace : string :=
  "urn:iec62325.351:tc57wg16:451-6:generationloaddocument:3:0".

(** The tag ElementTree gives to [ns:local] under the script's namespace map. *)
Definition ns (local : string) : string := ("{" ++ namespace ++ "}" ++ local)%string.

(** [e.findall('.//ns:t', namespace)] and [e.find('.//ns:t', namespace)]. *)
Definition findall (t : string) (e : Element) : list Element := descendant (ns t) e.
Definition find (t : string) (e : Element) : option Element := hd_error (findall t e).

(** [period.find('.//ns:timeInterval/ns:start', namespace)]. *)
Definition find_start (period : Element) : option Element :=
  hd_error (flat_map (child (ns "start")) (descendant (ns "timeInterval") period)).

(** ** The records the script passes around *)

(** The dict built at lines 90-93; both keys are always set. *)
Record LoadPoint : Type := mkLoadPoint {
  load_time : string;      (* 'time' *)
  load_kwh : float64       (* 'load_kwh' *)
}.

(** A price dict: the stub's has a 'time', the default of line 188 has not. *)
Record PricePoint : Type := mkPricePoint {
  price_time : option string;   (* 'time' *)
  price_eur_kwh : number        (* 'price_eur_kwh' *)
}.

Record Fields : Type := mkFields {
  energy_kwh : float64;
  co2eq_g : float64;
  cost_eur : float64;
  co2_intensity : pyval;
  stored_price_eur_kwh : number   (* "price_eur_kwh" *)
}.

Record InfluxPoint : Type := mkInfluxPoint {
  measurement : string;
  time : string;
  fields : Fields
}.

(** ** Events and the monad *)

Inductive level : Type := INFO | WARNING | ERROR.

(** The log lines of the script, with the values they interpolate. *)
Inductive message : Type :=
| ConnectedToInfluxDB
| InfluxDBConnectionFailed (e : exn)
| MakingEntsoeRequest (params : list (string * option string))
| ResponseStatus (status : Z)
| RequestURL
| RetrievedLoadPoints (n : nat)
| EntsoeRequestFailed (e : exn)
| XMLParsingError (e : exn)
| ElectricityMapsRequestFailed (e : exn)
| RequestingData (start_utc end_utc : datetime)
| SuccessfullyWrote (n : nat)
| NoDataPointsToWrite
| DataCollectionFailed (e : exn)
| ScriptExecutionFailed (e : exn).

Inductive event : Type :=
| Log (l : level) (m : message)
| HttpGet (url : string) (headers params : list (string * option string))
| Ping
| WritePoints (points : list InfluxPoint).

(** A computation performs events and then returns or raises. *)
Definition M (A : Type) : Type := (list event * outcome A)%type.

Definition ret {A : Type} (a : A) : M A := ([], Return a).
Definition raise {A : Type} (e : exn) : M A := ([], Raise e).
Definition lift {A : Type} (o : outcome A) : M A := ([], o).
Definition emit (ev : event) : M unit := ([ev], Return tt).

Definition bind {A B : Type} (m : M A) (k : A -> M B) : M B :=
  match m with
  | (t, Return a) => let (t', r) := k a in (t ++ t', r)
  | (t, Raise e) => (t, Raise e)
  end.

Notation "'do' x '<-' m ';' k" := (bind m (fun x => k))
  (at level 10, x name, m at level 100, k at level 200).
Notation "m ';;' k" := (bind m (fun _ => k))
  (at level 61, right associativity).

(** [try: body  except ...: handler]: [handlers e] is the handler of the
    first clause that matches [e], if any. *)
Definition try_except {A : Type} (body : M A) (handlers : exn -> option (M A)) : M A :=
  match body with
  | (t, Raise e) =>
      match handlers e with
      | Some (t', r) => (t ++ t', r)
      | None => (t, Raise e)
      end
  | (t, Return a) => (t, Return a)
  end.

Definition trace {A : Type} (m : M A) : list event := fst m.
Definition result {A : Type} (m : M A) : outcome A := snd m.

Definition logger (l : level) (m : message) : M unit := emit (Log l m).

(** The batches handed to [write_points], in order. *)
Fixpoint writes (t : list event) : list (list InfluxPoint) :=
  match t with
  | [] => []
  | WritePoints points :: t' => points :: writes t'
  | _ :: t' => writes t'
  end.

(** The HTTP requests of a trace, in order. *)
Fixpoint requests_made (t : list event) : list event :=
  match t with
  | [] => []
  | HttpGet url headers params :: t' => HttpGet url headers params :: requests_made t'
  | _ :: t' => requests_made t'
  end.

(** The sizes the line "Successfully wrote n data points" reports. *)
Fixpoint success_logs (t : list event) : list nat :=
  match t with
  | [] => []
  | Log INFO (SuccessfullyWrote n) :: t' => n :: success_logs t'
  | _ :: t' => success_logs t'
  end.

Fixpoint http_calls (t : list event) : nat :=
  match t with
  | [] => O
  | HttpGet _ _ _ :: t' => S (http_calls t')
  | _ :: t' => http_calls t'
  end.

(** ** The world *)

(** A [requests.Response]: its status and its body as [ET.fromstring] and
    as [.json()] read it ([None]: the body is not well-formed XML, resp. not
    JSON). *)
Record Response : Type := mkResponse {
  status_code : Z;
  xml : option Element;
  json : option pyval
}.

Inductive reply : Type :=
| Failed (k : request_failure)    (* requests.get raises *)
| Answered (r : Response).

Record World : Type := mkWorld {
  getenv : string -> option string;
  now : datetime;                       (* datetime.now(timezone.utc) *)
  http : string -> list (string * option string) -> list (string * option string) -> reply;
  ping : option exn;                    (* what InfluxDBClient.ping() raises *)
  write_points : list InfluxPoint -> option exn
}.

Definition requests_get (w : World) (url : string)
    (headers params : list (string * option string)) : M Response :=
  emit (HttpGet url headers params) ;;
  match http w url headers params with
  | Failed k => raise (RequestException k)
  | Answered r => ret r
  end.

(** [response.raise_for_status()]: an [HTTPError] for 4xx and 5xx. *)
Definition raise_for_status (r : Response) : M unit :=
  if ((400 <=? status_code r) && (status_code r <? 600))%Z
  then raise (RequestException (HTTPError (status_code r)))
  else ret tt.

Definition ET_fromstring (r : Response) : M Element :=
  match xml r with
  | Some root => ret root
  | None => raise ParseError
  end.

Definition response_json (r : Response) : M pyval :=
  match json r with
  | Some data => ret data
  | None => raise (RequestException JSONDecodeError)
  end.

(** ** class EnergyDataCollector *)

Record EnergyDataCollector : Type := mkCollector {
  ENTSOE_API_KEY : option string;
  ELECTRICITYMAPS_API_KEY : option string
}.

(** [__init__] (lines 22-38): read the keys, connect, ping; a failed ping is
    logged and raised again. *)
Definition EnergyDataCollector_init (w : World) : M EnergyDataCollector :=
  try_except
    (emit Ping ;;
     match ping w with
     | Some e => raise e
     | None => logger INFO ConnectedToInfluxDB
     end)
    (fun e => Some (logger ERROR (InfluxDBConnectionFailed e) ;; raise e)) ;;
  ret (mkCollector (getenv w "ENTSOE_API_KEY") (getenv w "ELECTRICITYMAPS_API_KEY")).

Section Collector.
Context {py : CPython}.

(** Lines 85-86: the start of a period. [None.text] is an
    [AttributeError], [fromisoformat(None)] a [TypeError], an unreadable
    date a [ValueError]. *)
Definition period_start (period : Element) : outcome datetime :=
  match find_start period with
  | None => Raise AttributeError
  | Some el =>
      match text el with
      | None => Raise TypeError
      | Some start_date_str =>
          match fromisoformat start_date_str with
          | None => Raise ValueError
          | Some start_date => Return start_date
          end
      end
  end.

(** Line 89: [float(point.find('.//ns:quantity', namespace).text)]. *)
Definition point_quantity (point : Element) : outcome float64 :=
  match find "quantity" point with
  | None => Raise AttributeError
  | Some el =>
      match text el with
      | None => Raise TypeError
      | Some s =>
          match float_of_str s with
          | None => Raise ValueError
          | Some quantity => Return quantity
          end
      end
  end.

(** Lines 88-93: the loop over the points of a period, appending to
    [load_points]. *)
Fixpoint for_points (start_date : datetime) (points : list Element)
    (load_points : list LoadPoint) : outcome (list LoadPoint) :=
  match points with
  | [] => Return load_points
  | point :: rest =>
      let? quantity := point_quantity point in
      for_points start_date rest
        (load_points ++ [mkLoadPoint (isoformat start_date) quantity])
  end.

(** Lines 82-93: the loop over the time series. *)
Fixpoint for_timeseries (all_timeseries : list Element)
    (load_points : list LoadPoint) : outcome (list LoadPoint) :=
  match all_timeseries with
  | [] => Return load_points
  | timeseries :: rest =>
      match find "Period" timeseries with
      | Some period =>
          let? start_date := period_start period in
          let? load_points :=
            for_points start_date (findall "Point" period) load_points in
          for_timeseries rest load_points
      | None => for_timeseries rest load_points
      end
  end.

(** Lines 81-93 on a parsed document. *)
Definition load_points_of (root : Element) : outcome (list LoadPoint) :=
  for_timeseries (findall "TimeSeries" root) [].

Definition entsoe_url : string := "https://web-api.tp.entsoe.eu/api".

Definition entsoe_params (self : EnergyDataCollector) (start end_ : datetime)
  : list (string * option string) :=
  [ ("securityToken", ENTSOE_API_KEY self);
    ("documentType", Some "A65");
    ("processType", Some "A16");
    ("in_Domain", Some "10Y1001A1001A83F");
    ("OutBiddingZone_Domain", Some "10Y1001A1001A83F");
    ("periodStart", Some (strftime_period start));
    ("periodEnd", Some (strftime_period end_)) ]%string.

(** [get_entsoe_load] (lines 40-103). *)
Definition get_entsoe_load (w : World) (self : EnergyDataCollector)
    (start end_ : datetime) : M (list LoadPoint) :=
  let params := entsoe_params self start end_ in
  logger INFO (MakingEntsoeRequest params) ;;
  try_except
    (do response <- requests_get w entsoe_url [] params;
     logger INFO (ResponseStatus (status_code response)) ;;
     logger INFO RequestURL ;;
     raise_for_status response ;;
     do root <- ET_fromstring response;
     do load_points <- lift (load_points_of root);
     logger INFO (RetrievedLoadPoints (List.length load_points)) ;;
     ret load_points)
    (fun e =>
       match e with
       | RequestException _ => Some (logger ERROR (EntsoeRequestFailed e) ;; ret [])
       | ParseError => Some (logger ERROR (XMLParsingError e) ;; ret [])
       | _ => None
       end).

Definition electricitymaps_url : string :=
  "https://api.electricitymap.org/v3/carbon-intensity/latest".

(** [data.get("carbonIntensity", 0)]: only a dict has [get]. *)
Definition data_get (data : pyval) : M pyval :=
  match data with
  | PyDict d => ret (dict_get d "carbonIntensity" (PyNum (Int 0)))
  | _ => raise AttributeError
  end.

(** [get_co2_intensity] (lines 105-126). *)
Definition get_co2_intensity (w : World) (self : EnergyDataCollector)
    (zone : string) : M pyval :=
  let headers := [("auth-token"%string, ELECTRICITYMAPS_API_KEY self)] in
  let params := [("zone"%string, Some zone)] in
  try_except
    (do response <- requests_get w electricitymaps_url headers params;
     raise_for_status response ;;
     do data <- response_json response;
     data_get data)
    (fun e =>
       match e with
       | RequestException _ =>
           Some (logger ERROR (ElectricityMapsRequestFailed e) ;; ret (PyNum (Int 0)))
       | _ => None
       end).

(** [get_epex_prices] (lines 128-144): the placeholder. *)
Definition get_epex_prices (start end_ : datetime) : list PricePoint :=
  [mkPricePoint (Some (isoformat start)) (Float example_price)].

(** The method [EnergyDataCollector.collect_and_store_data] (lines
    146-154). The [def] of line 155 starts in column 0, so the class body
    ends at line 154 and the body of the method is its docstring alone. *)
Definition EnergyDataCollector_collect_and_store_data (w : World)
    (self : EnergyDataCollector) (days_to_collect interval_minutes : Z) : M unit :=
  ret tt.

(** Lines 182-202: one point per load dict, appended to [points]. Every load
    dict has both of its keys, so the defaults of [load.get] never serve. *)
Fixpoint for_load (load_data : list LoadPoint) (co2_intensity : pyval)
    (price_data : list PricePoint) (points : list InfluxPoint)
  : outcome (list InfluxPoint) :=
  match load_data with
  | [] => Return points
  | load :: rest =>
      let energy_kwh := fmul (load_kwh load) manufacturing_factor in
      let? co2eq := mul_float energy_kwh co2_intensity in
      let price :=
        match price_data with
        | p :: _ => p
        | [] => mkPricePoint None (Int 0)
        end in
      let? cost := mul_number energy_kwh (price_eur_kwh price) in
      let point :=
        mkInfluxPoint "manufacturing_energy" (load_time load)
          (mkFields energy_kwh co2eq cost co2_intensity (price_eur_kwh price)) in
      for_load rest co2_intensity price_data (points ++ [point])
  end.

(** The price line 188 picks, the same for every load point. *)
Definition broadcast_price (price_data : list PricePoint) : number :=
  match price_data with
  | p :: _ => price_eur_kwh p
  | [] => Int 0
  end.

(** The composition step, lines 178-202. *)
Definition prepare_points (load_data : list LoadPoint) (co2_intensity : pyval)
    (price_data : list PricePoint) : outcome (list InfluxPoint) :=
  for_load load_data co2_intensity price_data [].

Definition influx_write_points (w : World) (points : list InfluxPoint) : M unit :=
  emit (WritePoints points) ;;
  match write_points w points with
  | Some e => raise e
  | None => ret tt
  end.

(** The [try] block of the module-level function, lines 174-209. *)
Definition fetch_compose_write (w : World) (self : EnergyDataCollector)
    (start_utc end_utc : datetime) : M unit :=
  do load_data <- get_entsoe_load w self start_utc end_utc;
  do co2_intensity <- get_co2_intensity w self "DE";
  let price_data := get_epex_prices start_utc end_utc in
  do points <- lift (prepare_points load_data co2_intensity price_data);
  match points with
  | _ :: _ =>
      influx_write_points w points ;;
      logger INFO (SuccessfullyWrote (List.length points))
  | [] => logger WARNING NoDataPointsToWrite
  end.

(** The module-level function [collect_and_store_data] (lines 155-212).
    The window is computed before the [try]. *)
Definition collect_and_store_data (w : World) (self : EnergyDataCollector)
    (days_to_collect : Z) : M unit :=
  let today_utc := now w in
  do range <- lift (window today_utc days_to_collect);
  let '(start_utc, end_utc) := range in
  logger INFO (RequestingData start_utc end_utc) ;;
  try_except
    (fetch_compose_write w self start_utc end_utc)
    (fun e => Some (logger ERROR (DataCollectionFailed e))).

(** [main] (lines 214-222): the attribute lookup on the instance finds the
    method of the class. *)
Definition main (w : World) : M unit :=
  try_except
    (do collector <- EnergyDataCollector_init w;
     EnergyDataCollector_collect_and_store_data w collector 7 15)
    (fun e => Some (logger ERROR (ScriptExecutionFailed e))).

(** The run as the specification describes it: [main] reaching the
    function that computes the window, fetches, composes and writes. *)
Definition main_as_specified (w : World) : M unit :=
  try_except
    (do collector <- EnergyDataCollector_init w;
     collect_and_store_data w collector 7)
    (fun e => Some (logger ERROR (ScriptExecutionFailed e))).

End Collector.

(** ** A reference instance of the builtins

    Enough of [float] and [fromisoformat] to run the script on documents as
    ENTSO-E writes them: decimal numbers with an optional fraction and
    exponent, [inf] and [nan]; dates [YYYY-MM-DD], optionally followed by a
    separator, [HH:MM] or [HH:MM:SS], and [Z] or [+HH:MM]. The theorems
    below hold for every instance; this one serves the examples. *)
Module Reference.

Definition is_digit (c : ascii) : bool :=
  let n := nat_of_ascii c in (48 <=? n)%nat && (n <=? 57)%nat.

Definition digit (c : ascii) : Z := Z.of_nat (nat_of_ascii c) - 48.

Definition is_space (c : ascii) : bool :=
  let n := nat_of_ascii c in (n =? 32)%nat || ((9 <=? n)%nat && (n <=? 13)%nat).

Definition lower (c : ascii) : ascii :=
  let n := nat_of_ascii c in
  if (65 <=? n)%nat && (n <=? 90)%nat then ascii_of_nat (n + 32) else c.

Fixpoint span_digits (cs : list ascii) : list ascii * list ascii :=
  match cs with
  | c :: rest =>
      if is_digit c then let (ds, rest') := span_digits rest in (c :: ds, rest')
      else ([], cs)
  | [] => ([], [])
  end.

Definition number_of (ds : list ascii) : Z :=
  fold_left (fun acc c => acc * 10 + digit c) ds 0.

Fixpoint lstrip (cs : list ascii) : list ascii :=
  match cs with
  | c :: rest => if is_space c then lstrip rest else cs
  | [] => []
  end.

Definition strip (cs : list ascii) : list ascii := rev (lstrip (rev (lstrip cs))).

Definition take_sign (cs : list ascii) : bool * list ascii :=
  match cs with
  | "-"%char :: rest => (true, rest)
  | "+"%char :: rest => (false, rest)
  | _ => (false, cs)
  end.

(** The double nearest to [n * 10^e10], ties to even: a quotient with
    three guard bits and a sticky bit, rounded by [binary_normalize]. *)
Definition round_decimal (neg : bool) (n e10 : Z) : float64 :=
  let signed z := if neg then - z else z in
  if n =? 0 then S754_zero neg
  else if 0 <=? e10 then binary_normalize prec emax (signed (n * 10 ^ e10)) 0 neg
  else
    let d := 10 ^ (- e10) in
    let s := Z.max 0 (Z.log2 d + 57 - Z.log2 n) in
    let q := (n * 2 ^ s) / d in
    let sticky := if (n * 2 ^ s) mod d =? 0 then 0 else 1 in
    binary_normalize prec emax (signed (2 * q + sticky)) (- s - 1) neg.

Definition float_digits (neg : bool) (cs : list ascii) : option float64 :=
  let (int_part, r1) := span_digits cs in
  let (frac_part, r2) :=
    match r1 with
    | "."%char :: r => span_digits r
    | _ => ([], r1)
    end in
  match int_part ++ frac_part with
  | [] => None
  | mantissa =>
      let scale := - Z.of_nat (List.length frac_part) in
      match r2 with
      | [] => Some (round_decimal neg (number_of mantissa) scale)
      | e :: r3 =>
          if Ascii.eqb (lower e) "e" then
            let (eneg, r4) := take_sign r3 in
            match span_digits r4 with
            | ((_ :: _) as ds, []) =>
                let ex := if eneg then - number_of ds else number_of ds in
                Some (round_decimal neg (number_of mantissa) (ex + scale))
            | _ => None
            end
          else None
      end
  end.

Definition float_of_str (s : string) : option float64 :=
  let (neg, cs) := take_sign (strip (list_ascii_of_string s)) in
  let word := string_of_list_ascii (map lower cs) in
  if (String.eqb word "inf" || String.eqb word "infinity")%string
  then Some (S754_infinity neg)
  else if String.eqb word "nan" then Some S754_nan
  else float_digits neg cs.

Definition two_digits (a b : ascii) : option Z :=
  if is_digit a && is_digit b then Some (digit a * 10 + digit b) else None.

Definition parse_date (cs : list ascii) : option (Z * Z * Z * list ascii) :=
  match cs with
  | y1 :: y2 :: y3 :: y4 :: "-"%char :: m1 :: m2 :: "-"%char :: d1 :: d2 :: rest =>
      match two_digits y1 y2, two_digits y3 y4, two_digits m1 m2, two_digits d1 d2 with
      | Some c, Some y, Some m, Some d =>
          let y := c * 100 + y in
          if (1 <=? y) && (1 <=? m) && (m <=? 12) && (1 <=? d) && (d <=? days_in_month y m)
          then Some (y, m, d, rest) else None
      | _, _, _, _ => None
      end
  | _ => None
  end.

Definition parse_clock (cs : list ascii) : option (Z * Z * Z * list ascii) :=
  match cs with
  | h1 :: h2 :: ":"%char :: m1 :: m2 :: rest =>
      match two_digits h1 h2, two_digits m1 m2 with
      | Some h, Some mi =>
          if (h <? 24) && (mi <? 60) then
            match rest with
            | ":"%char :: s1 :: s2 :: rest' =>
                match two_digits s1 s2 with
                | Some s => if s <? 60 then Some (h, mi, s, rest') else None
                | None => None
                end
            | _ => Some (h, mi, 0, rest)
            end
          else None
      | _, _ => None
      end
  | _ => None
  end.

Definition parse_offset (cs : list ascii) : option (option Z) :=
  match cs with
  | [] => Some None
  | ["Z"%char] => Some (Some 0)
  | sg :: rest =>
      match parse_clock rest with
      | Some (h, mi, 0, []) =>
          let us := (h * 3600 + mi * 60) * 1000000 in
          if Ascii.eqb sg "+" then Some (Some us)
          else if Ascii.eqb sg "-" then Some (Some (- us))
          else None
      | _ => None
      end
  end.

Definition fromisoformat (s : string) : option datetime :=
  match parse_date (list_ascii_of_string s) with
  | Some (y, m, d, []) => Some (mkdatetime y m d 0 0 0 0 None)
  | Some (y, m, d, _sep :: rest) =>
      match parse_clock rest with
      | Some (h, mi, sec, rest') =>
          match parse_offset rest' with
          | Some off => Some (mkdatetime y m d h mi sec 0 off)
          | None => None
          end
      | None => None
      end
  | None => None
  end.

Definition builtins : CPython := Build_CPython float_of_str fromisoformat.

End Reference.

(** ** Example documents and worlds *)

Definition leaf (local value : string) : Element := mkElement (ns local) (Some value) [].
Definition node (local : string) (ch : list Element) : Element := mkElement (ns local) None ch.

Definition point_xml (position quantity : string) : Element :=
  node "Point" [leaf "position" position; leaf "quantity" quantity].

Definition period_xml (start end_ : string) (points : list Element) : Element :=
  node "Period"
    (node "timeInterval" [leaf "start" start; leaf "end" end_]
     :: leaf "resolution" "PT60M" :: points).

Definition timeseries_xml (mRID : string) (periods : list Element) : Element :=
  node "TimeSeries"
    (leaf "mRID" mRID :: leaf "businessType" "A04"
     :: leaf "outBiddingZone_Domain.mRID" "10Y1001A1001A83F"
     :: leaf "quantity_Measure_Unit.name" "MAW" :: periods).

Definition document_xml (all_timeseries : list Element) : Element :=
  node "GL_MarketDocument"
    (leaf "mRID" "doc" :: leaf "type" "A65" :: leaf "process.processType" "A16"
     :: node "time_Period.timeInterval"
          [leaf "start" "2024-01-01T00:00Z"; leaf "end" "2024-01-02T00:00Z"]
     :: all_timeseries).

(** One period starting 2024-01-01T00:00Z with the quantities 100.0 and
    200.0. *)
Definition two_point_document : Element :=
  document_xml
    [timeseries_xml "1"
       [period_xml "2024-01-01T00:00Z" "2024-01-01T02:00Z"
          [point_xml "1" "100.0"; point_xml "2" "200.0"]]].

(** One time series with two periods. *)
Definition first_period : Element :=
  period_xml "2024-01-01T00:00Z" "2024-01-01T02:00Z"
    [point_xml "1" "100.0"; point_xml "2" "200.0"].

Definition second_period : Element :=
  period_xml "2024-01-01T03:00Z" "2024-01-01T04:00Z" [point_xml "1" "300.0"].

Definition two_period_timeseries : Element :=
  timeseries_xml "1" [first_period; second_period].

Definition two_period_document : Element := document_xml [two_period_timeseries].

(** A point whose quantity is not a number. *)
Definition bad_point : Element := point_xml "1" "n/a".

Definition bad_period : Element :=
  period_xml "2024-01-01T00:00Z" "2024-01-01T01:00Z" [bad_point].

Definition bad_quantity_document : Element :=
  document_xml [timeseries_xml "1" [bad_period]].

(** A period without [timeInterval/start]. *)
Definition missing_start_document : Element :=
  document_xml
    [node "TimeSeries" [node "Period" [point_xml "1" "100.0"]]].

(** A quantity too large for a double: [float("1e999")] is [inf]. *)
Definition infinite_load_document : Element :=
  document_xml
    [timeseries_xml "1"
       [period_xml "2024-01-01T00:00Z" "2024-01-01T01:00Z" [point_xml "1" "1e999"]]].

Definition intensity_json (v : pyval) : pyval :=
  PyDict [("zone"%string, PyStr "DE"); ("carbonIntensity"%string, v)].

(** 400.0 *)
Definition f400 : float64 := S754_finite false 7036874417766400 (-44).

(** A world in which both services answer 200: ENTSO-E with [root],
    Electricity Maps with [data]; the database is up. *)
Definition serving (root : Element) (data : pyval) : World :=
  mkWorld (fun _ => Some "key"%string)
          (utc 2024 3 10 12 0 0 0)
          (fun url _ _ =>
             if String.eqb url entsoe_url
             then Answered (mkResponse 200 (Some root) None)
             else Answered (mkResponse 200 None (Some data)))
          None
          (fun _ => None).

Definition demo_world : World :=
  serving two_point_document (intensity_json (PyNum (Float f400))).

Definition demo_collector : EnergyDataCollector :=
  mkCollector (Some "key"%string) (Some "key"%string).

Definition demo_now : datetime := utc 2024 3 10 12 0 0 0.
Definition demo_start : datetime := utc 2024 3 3 0 0 0 0.
Definition demo_end : datetime := utc 2024 3 9 23 59 59 999999.

(** The load points and the batch of [demo_world]. *)
Definition demo_load_data : list LoadPoint :=
  Eval vm_compute in
    match load_points_of (py := Reference.builtins) two_point_document with
    | Return load_points => load_points
    | Raise _ => []
    end.

Definition demo_batch : list InfluxPoint :=
  Eval vm_compute in
    match prepare_points demo_load_data (PyNum (Float f400))
                         (get_epex_prices demo_start demo_end) with
    | Return points => points
    | Raise _ => []
    end.

(** The first record of [demo_batch] and the rest. *)
Definition demo_batch_head : InfluxPoint :=
  Eval vm_compute in
    match demo_batch with
    | point :: _ => point
    | [] => mkInfluxPoint "" "" (mkFields S754_nan S754_nan S754_nan PyNone (Int 0))
    end.

Definition demo_batch_tail : list InfluxPoint := Eval vm_compute in tl demo_batch.

(** ENTSO-E serves the document with the unreadable quantity. *)
Definition bad_quantity_world : World :=
  serving bad_quantity_document (intensity_json (PyNum (Float f400))).

(** Electricity Maps answers [300 Multiple Choices] with a JSON body. *)
Definition multiple_choices_world : World :=
  mkWorld (fun _ => Some "key"%string)
          (utc 2024 3 10 12 0 0 0)
          (fun _ _ _ =>
             Answered (mkResponse 300 None (Some (intensity_json (PyNum (Float f400))))))
          None
          (fun _ => None).

(** No service can be reached. *)
Definition unreachable_world : World :=
  mkWorld (fun _ => Some "key"%string)
          (utc 2024 3 10 12 0 0 0)
          (fun _ _ _ => Failed ConnectionError)
          None
          (fun _ => None).

(** ENTSO-E answers [403 Forbidden], with a readable document as body. *)
Definition forbidden_response : Response :=
  mkResponse 403 (Some two_point_document) None.

Definition forbidden_world : World :=
  mkWorld (fun _ => Some "key"%string)
          (utc 2024 3 10 12 0 0 0)
          (fun _ _ _ => Answered forbidden_response)
          None
          (fun _ => None).

(** ENTSO-E serves the two points, Electricity Maps cannot be reached. *)
Definition no_intensity_world : World :=
  mkWorld (fun _ => Some "key"%string)
          (utc 2024 3 10 12 0 0 0)
          (fun url _ _ =>
             if String.eqb url entsoe_url
             then Answered (mkResponse 200 (Some two_point_document) None)
             else Failed Timeout)
          None
          (fun _ => None).

(** Electricity Maps answers [{"zone": "DE", "carbonIntensity": null}]. *)
Definition null_intensity_world : World :=
  serving two_point_document (intensity_json PyNone).

(** The services answer as in [demo_world]; the database refuses the write. *)
Definition read_only_world : World :=
  mkWorld (fun _ => Some "key"%string)
          (utc 2024 3 10 12 0 0 0)
          (http demo_world)
          None
          (fun _ => Some (ClientError "read only")).

(** A document without any TimeSeries. *)
Definition empty_document : Element := document_xml [].

(** ENTSO-E serves the document without TimeSeries; Electricity Maps answers
    200 with the JSON list [[]]. *)
Definition list_body_world : World := serving empty_document (PyList []).

(** A load point of infinite load, as [float("1e999")] gives. *)
Definition infinite_load : LoadPoint :=
  mkLoadPoint "2024-01-01T00:00:00+00:00" (S754_infinity false).

(** ** The load document of the specification *)

Section Schema.
Context {py : CPython}.

Definition is_return {A : Type} (o : outcome A) : bool :=
  match o with
  | Return _ => true
  | Raise _ => false
  end.

(** An element that holds no TimeSeries, Period or Point, itself included:
    the headers, [timeInterval], [resolution], [position], [quantity]. *)
Definition plain (e : Element) : bool :=
  match iter (ns "TimeSeries") e, iter (ns "Period") e, iter (ns "Point") e with
  | [], [], [] => true
  | _, _, _ => false
  end.

(** A Point: plain children, among them a quantity that [float] reads. *)
Definition valid_point (point : Element) : bool :=
  String.eqb (tag point) (ns "Point")
  && forallb plain (children point)
  && is_return (point_quantity point).

(** A Period: Points and plain children, among them a [timeInterval] whose
    [start] is a date [fromisoformat] reads. *)
Definition valid_period (period : Element) : bool :=
  String.eqb (tag period) (ns "Period")
  && forallb (fun c => valid_point c || plain c) (children period)
  && is_return (period_start period).

(** A TimeSeries of the schema: Periods among plain children. *)
Definition schema_timeseries (timeseries : Element) : bool :=
  String.eqb (tag timeseries) (ns "TimeSeries")
  && forallb (fun c => valid_period c || plain c) (children timeseries).

(** Section 4.1 of the specification: one root containing zero or more
    TimeSeries elements, each containing a Period with a
    [timeInterval/start] and zero or more Point elements holding a
    quantity. *)
Definition schema_document (root : Element) : bool :=
  forallb (fun c => schema_timeseries c || plain c) (children root).

(** A TimeSeries that holds no second Period. *)
Definition single_period (timeseries : Element) : bool :=
  (List.length (child (ns "Period") timeseries) <=? 1)%nat.

Definition valid_timeseries (timeseries : Element) : bool :=
  schema_timeseries timeseries && single_period timeseries.

(** A document of the schema in which no TimeSeries holds more than one
    Period. *)
Definition valid_load_document (root : Element) : bool :=
  forallb (fun c => valid_timeseries c || plain c) (children root).

(** The Points of a document, each with the Period that encloses it, in
    document order. *)
Definition enclosed_points (root : Element) : list (Element * Element) :=
  flat_map (fun period => map (pair period) (findall "Point" period))
           (findall "Period" root).

(** A load point as the specification describes it: the start of the
    enclosing Period and the quantity of the Point. *)
Definition load_point_at (period point : Element) (lp : LoadPoint) : Prop :=
  exists start_date,
    period_start period = Return start_date /\
    load_time lp = isoformat start_date /\
    point_quantity point = Return (load_kwh lp).

Fixpoint mapM {A B : Type} (f : A -> outcome B) (l : list A) : outcome (list B) :=
  match l with
  | [] => Return []
  | a :: l' =>
      let? b := f a in
      let? bs := mapM f l' in
      Return (b :: bs)
  end.

(** What a TimeSeries contributes when only the first of its Periods is
    read: that Period's start on each of that Period's Points. *)
Definition first_period_points (timeseries : Element) : outcome (list LoadPoint) :=
  match findall "Period" timeseries with
  | [] => Return []
  | first :: _later =>
      let? start_date := period_start first in
      mapM (fun point =>
              let? quantity := point_quantity point in
              Return (mkLoadPoint (isoformat start_date) quantity))
           (findall "Point" first)
  end.

Definition first_periods_only (root : Element) : outcome (list LoadPoint) :=
  let? per_timeseries := mapM first_period_points (findall "TimeSeries" root) in
  Return (List.concat per_timeseries).

(** The Periods the parser reads: the first Period of each TimeSeries. *)
Definition visited_periods (root : Element) : list Element :=
  flat_map (fun timeseries =>
              match find "Period" timeseries with
              | Some period => [period]
              | None => []
              end)
           (findall "TimeSeries" root).

(** A Period with a field the parser cannot read: its start, or the
    quantity of one of its Points, is missing, empty or unparsable. *)
Definition malformed_period (period : Element) : Prop :=
  (exists e, period_start period = Raise e) \/
  (exists point e, In point (findall "Point" period) /\ point_quantity point = Raise e).

Definition field_error (e : exn) : Prop :=
  e = AttributeError \/ e = TypeError \/ e = ValueError.

End Schema.

(** A record derived from a load point with intensity [c] and price [p]. *)
Definition composed (intensity : pyval) (c : float64) (price : number) (p : float64)
    (load : LoadPoint) (point : InfluxPoint) : Prop :=
  measurement point = "manufacturing_energy"%string /\
  time point = load_time load /\
  energy_kwh (fields point) = fmul (load_kwh load) manufacturing_factor /\
  co2eq_g (fields point) = fmul (energy_kwh (fields point)) c /\
  cost_eur (fields point) = fmul (energy_kwh (fields point)) p /\
  co2_intensity (fields point) = intensity /\
  stored_price_eur_kwh (fields point) = price.

(** Lines 205-209, the [if points:] block of the module-level function. *)
Definition store (w : World) (points : list InfluxPoint) : M unit :=
  match points with
  | _ :: _ =>
      influx_write_points w points ;;
      logger INFO (SuccessfullyWrote (List.length points))
  | [] => logger WARNING NoDataPointsToWrite
  end.

(** * Properties *)

(** ** The monad *)

Lemma writes_app (t1 t2 : list event) : writes (t1 ++ t2) = writes t1 ++ writes t2.
Proof.
  induction t1 as [|ev t1 IH]; simpl; [reflexivity|].
  destruct ev; simpl; rewrite IH; reflexivity.
Qed.

Lemma http_calls_app (t1 t2 : list event) :
  http_calls (t1 ++ t2) = (http_calls t1 + http_calls t2)%nat.
Proof.
  induction t1 as [|ev t1 IH]; simpl; [reflexivity|].
  destruct ev; simpl; rewrite IH; reflexivity.
Qed.

Lemma trace_bind {A B : Type} (m : M A) (k : A -> M B) :
  trace (bind m k) =
  match result m with
  | Return a => trace m ++ trace (k a)
  | Raise _ => trace m
  end.
Proof.
  destruct m as [t [a|e]]; simpl; [|reflexivity].
  destruct (k a); reflexivity.
Qed.

Lemma result_bind {A B : Type} (m : M A) (k : A -> M B) :
  result (bind m k) =
  match result m with
  | Return a => result (k a)
  | Raise e => Raise e
  end.
Proof.
  destruct m as [t [a|e]]; simpl; [|reflexivity].
  destruct (k a); reflexivity.
Qed.

Lemma trace_try {A : Type} (body : M A) (handlers : exn -> option (M A)) :
  trace (try_except body handlers) =
  match result body with
  | Return _ => trace body
  | Raise e =>
      match handlers e with
      | Some h => trace body ++ trace h
      | None => trace body
      end
  end.
Proof.
  destruct body as [t [a|e]]; simpl; [reflexivity|].
  destruct (handlers e) as [[t' r]|]; reflexivity.
Qed.

Lemma result_try {A : Type} (body : M A) (handlers : exn -> option (M A)) :
  result (try_except body handlers) =
  match result body with
  | Return a => Return a
  | Raise e =>
      match handlers e with
      | Some h => result h
      | None => Raise e
      end
  end.
Proof.
  destruct body as [t [a|e]]; simpl; [reflexivity|].
  destruct (handlers e) as [[t' r]|]; reflexivity.
Qed.

(** ** The entry point *)

(** The constructor talks to the database only. *)
Lemma init_trace (w : World) :
  http_calls (trace (EnergyDataCollector_init w)) = O /\
  writes (trace (EnergyDataCollector_init w)) = [].
Proof.
  unfold EnergyDataCollector_init. destruct (ping w); split; reflexivity.
Qed.

(** In no world does [main] fetch or write: the method it calls is empty. *)
Lemma main_never_collects (w : World) :
  http_calls (trace (main w)) = O /\ writes (trace (main w)) = [].
Proof.
  unfold main, EnergyDataCollector_init. destruct (ping w); split; reflexivity.
Qed.

(** C1. [main] calls [collector.collect_and_store_data(days_to_collect=7,
    interval_minutes=15)], which is the method of the class, and the body of
    that method is a docstring. In the world where ENTSO-E serves two
    points, [main] pings the database and stops: no window, no request, no
    write. The function that holds the pipeline, reached the way the
    specification describes the run, makes two requests and writes one batch
    of two points; the two definitions are not behaviourally equal. *)
Theorem main_runs_the_empty_method :
  main demo_world = ([Ping; Log INFO ConnectedToInfluxDB], Return tt) /\
  http_calls (trace (main_as_specified (py := Reference.builtins) demo_world)) = 2%nat /\
  map (@List.length InfluxPoint)
      (writes (trace (main_as_specified (py := Reference.builtins) demo_world))) = [2%nat] /\
  main demo_world <> main_as_specified (py := Reference.builtins) demo_world.
Proof.
  repeat split; try (vm_compute; reflexivity).
  vm_compute. discriminate.
Qed.

(** ** The collection window *)

(** C2, as stated: the window does not start on 2 March. *)
Lemma window_does_not_start_on_march_2 :
  window (utc 2024 3 10 12 0 0 0) 7
  <> Return (utc 2024 3 2 0 0 0 0, utc 2024 3 9 23 59 59 999999).
Proof. vm_compute. discriminate. Qed.

(** C2, amended. For the invocation instant 2024-03-10T12:00:00Z and 7 days
    the window is 2024-03-03T00:00:00Z to 2024-03-09T23:59:59.999999Z: it
    ends on the day before the invocation and covers 7 whole UTC days. *)
Theorem window_2024_03_10 :
  let today_utc := utc 2024 3 10 12 0 0 0 in
  let start_utc := utc 2024 3 3 0 0 0 0 in
  let end_utc := utc 2024 3 9 23 59 59 999999 in
  window today_utc 7 = Return (start_utc, end_utc) /\
  toordinal end_utc = toordinal today_utc - 1 /\
  toordinal end_utc - toordinal start_utc + 1 = 7.
Proof. repeat split. Qed.

(** ** The load document *)

Section LoadDocument.
Context {py : CPython}.

Lemma iter_unfold (t : string) (e : Element) :
  iter t e = (if String.eqb (tag e) t then [e] else []) ++ flat_map (iter t) (children e).
Proof. destruct e; reflexivity. Qed.

(** Induction on an element, with the hypothesis on all its children. *)
Lemma Element_nested_ind (P : Element -> Prop) :
  (forall tg tx ch, Forall P ch -> P (mkElement tg tx ch)) ->
  forall e, P e.
Proof.
  intros step. fix rec 1. intros [tg tx ch]. apply step.
  induction ch as [|c ch IH]; constructor; [apply rec | exact IH].
Qed.

Lemma iter_tag (t : string) (e x : Element) : In x (iter t e) -> tag x = t.
Proof.
  revert x. induction e as [tg tx ch IH] using Element_nested_ind.
  intros x Hx. rewrite iter_unfold in Hx. simpl in Hx.
  apply in_app_or in Hx. destruct Hx as [Hx|Hx].
  - destruct (String.eqb tg t) eqn:E; [|contradiction].
    destruct Hx as [<-|[]]. simpl. now apply String.eqb_eq.
  - apply in_flat_map in Hx. destruct Hx as [c [Hc Hx]].
    rewrite Forall_forall in IH. exact (IH c Hc x Hx).
Qed.

Lemma for_points_mapM (start_date : datetime) (points : list Element) :
  forall acc,
    for_points start_date points acc =
    (let? lps := mapM (fun point =>
                         let? quantity := point_quantity point in
                         Return (mkLoadPoint (isoformat start_date) quantity)) points in
     Return (acc ++ lps)).
Proof.
  induction points as [|point rest IH]; intros acc; simpl.
  - now rewrite app_nil_r.
  - destruct (point_quantity point) as [q|e]; simpl; [|reflexivity].
    rewrite IH. destruct (mapM _ rest) as [lps|e]; simpl; [|reflexivity].
    now rewrite <- app_assoc.
Qed.

Lemma for_timeseries_first_periods (all_timeseries : list Element) :
  forall acc,
    for_timeseries all_timeseries acc =
    (let? per_timeseries := mapM first_period_points all_timeseries in
     Return (acc ++ List.concat per_timeseries)).
Proof.
  induction all_timeseries as [|ts rest IH]; intros acc; simpl.
  - now rewrite app_nil_r.
  - remember (mapM first_period_points rest) as tail eqn:Htail in *.
    unfold find, first_period_points.
    destruct (findall "Period" ts) as [|first later]; simpl.
    + rewrite IH. destruct tail; reflexivity.
    + destruct (period_start first) as [start_date|e]; simpl; [|reflexivity].
      rewrite for_points_mapM.
      destruct (mapM _ (findall "Point" first)) as [lps|e]; simpl; [|reflexivity].
      rewrite IH. destruct tail; simpl; [|reflexivity].
      now rewrite <- app_assoc.
Qed.

(** C10. In a document where a TimeSeries holds more than one Period, the
    parser reads the start of the first Period only and emits load points
    for the Points inside that first Period only: the result is the
    concatenation of what the first Period of each TimeSeries gives, and the
    TimeSeries contributes what it would if its first Period were its only
    child. The later Periods are not looked at, so nothing is raised or
    logged for them. *)
Theorem later_periods_are_dropped
    (root timeseries first second : Element) (later : list Element) :
  In timeseries (findall "TimeSeries" root) ->
  findall "Period" timeseries = first :: second :: later ->
  load_points_of root = first_periods_only root /\
  first_period_points timeseries =
  first_period_points (mkElement (tag timeseries) (text timeseries) [first]).
Proof.
  intros _ Hperiods. split.
  - unfold load_points_of, first_periods_only.
    now rewrite for_timeseries_first_periods.
  - assert (Htag : tag first = ns "Period").
    { unfold findall, descendant in Hperiods.
      assert (Hin : In first (flat_map (iter (ns "Period")) (children timeseries)))
        by (rewrite Hperiods; now left).
      apply in_flat_map in Hin. destruct Hin as [c [_ Hin]].
      exact (iter_tag _ _ _ Hin). }
    unfold first_period_points at 2. unfold findall at 1, descendant. simpl.
    rewrite iter_unfold, Htag, String.eqb_refl. simpl.
    unfold first_period_points. now rewrite Hperiods.
Qed.

(** *** Documents that follow the schema *)

Lemma tags_differ :
  String.eqb (ns "Point") (ns "Period") = false /\
  String.eqb (ns "Point") (ns "TimeSeries") = false /\
  String.eqb (ns "Period") (ns "Point") = false /\
  String.eqb (ns "Period") (ns "TimeSeries") = false /\
  String.eqb (ns "TimeSeries") (ns "Point") = false /\
  String.eqb (ns "TimeSeries") (ns "Period") = false.
Proof. repeat split. Qed.

Lemma flat_map_nil {A B : Type} (f : A -> list B) (l : list A) :
  Forall (fun a => f a = []) l -> flat_map f l = [].
Proof.
  induction 1 as [|a l Ha _ IH]; simpl; [reflexivity|]. now rewrite Ha, IH.
Qed.

Lemma plain_iter (e : Element) :
  plain e = true ->
  iter (ns "TimeSeries") e = [] /\ iter (ns "Period") e = [] /\ iter (ns "Point") e = [].
Proof.
  unfold plain.
  destruct (iter (ns "TimeSeries") e), (iter (ns "Period") e), (iter (ns "Point") e);
    try discriminate; auto.
Qed.

#[local] Arguments ns : simpl never.

Lemma valid_point_iter (point : Element) :
  valid_point point = true ->
  iter (ns "Point") point = [point] /\
  iter (ns "Period") point = [] /\
  iter (ns "TimeSeries") point = [].
Proof.
  unfold valid_point. rewrite !andb_true_iff. intros [[Htag Hch] _].
  apply String.eqb_eq in Htag. rewrite forallb_forall in Hch.
  destruct tags_differ as (H1 & H2 & _).
  rewrite !iter_unfold, Htag, String.eqb_refl, H1, H2. simpl.
  repeat split; [f_equal| |]; apply flat_map_nil, Forall_forall;
    intros c Hc; apply plain_iter; auto.
Qed.

(** The children of a Period. *)
Lemma period_children (cs : list Element) :
  forallb (fun c => valid_point c || plain c) cs = true ->
  flat_map (iter (ns "TimeSeries")) cs = [] /\
  flat_map (iter (ns "Period")) cs = [] /\
  Forall (fun point => valid_point point = true) (flat_map (iter (ns "Point")) cs).
Proof.
  induction cs as [|c cs IH]; simpl; [auto|].
  rewrite andb_true_iff, orb_true_iff. intros [Hc Hcs].
  destruct (IH Hcs) as (IH1 & IH2 & IH3). rewrite IH1, IH2.
  destruct Hc as [Hc|Hc].
  - destruct (valid_point_iter c Hc) as (E1 & E2 & E3). rewrite E1, E2, E3.
    repeat split. simpl. now constructor.
  - destruct (plain_iter c Hc) as (E1 & E2 & E3). rewrite E1, E2, E3. auto.
Qed.

Lemma valid_period_iter (period : Element) :
  valid_period period = true ->
  iter (ns "TimeSeries") period = [] /\
  iter (ns "Period") period = [period] /\
  iter (ns "Point") period = findall "Point" period /\
  Forall (fun point => valid_point point = true) (findall "Point" period) /\
  exists start_date, period_start period = Return start_date.
Proof.
  unfold valid_period. rewrite !andb_true_iff. intros [[Htag Hch] Hstart].
  apply String.eqb_eq in Htag.
  destruct (period_children _ Hch) as (E1 & E2 & E3).
  destruct tags_differ as (_ & _ & H3 & H4 & _).
  rewrite !iter_unfold, Htag, String.eqb_refl, H3, H4, E1, E2. simpl.
  repeat split; auto.
  destruct (period_start period) as [d|e]; [now exists d | discriminate].
Qed.

(** The children of a TimeSeries. *)
Lemma timeseries_children (cs : list Element) :
  forallb (fun c => valid_period c || plain c) cs = true ->
  flat_map (iter (ns "TimeSeries")) cs = [] /\
  flat_map (iter (ns "Period")) cs = filter (fun c => String.eqb (tag c) (ns "Period")) cs /\
  Forall (fun period => valid_period period = true) (flat_map (iter (ns "Period")) cs) /\
  flat_map (iter (ns "Point")) cs =
  flat_map (findall "Point") (flat_map (iter (ns "Period")) cs).
Proof.
  induction cs as [|c cs IH]; simpl; [auto|].
  rewrite andb_true_iff, orb_true_iff. intros [Hc Hcs].
  destruct (IH Hcs) as (IH1 & IH2 & IH3 & IH4). rewrite IH1, IH4.
  destruct Hc as [Hc|Hc].
  - destruct (valid_period_iter c Hc) as (E1 & E2 & E3 & _).
    assert (Htag : String.eqb (tag c) (ns "Period") = true).
    { unfold valid_period in Hc. rewrite !andb_true_iff in Hc. tauto. }
    rewrite E1, E2, E3, Htag. simpl. rewrite IH2.
    repeat split; auto. constructor; [exact Hc|]. now rewrite <- IH2.
  - destruct (plain_iter c Hc) as (E1 & E2 & E3).
    assert (Htag : String.eqb (tag c) (ns "Period") = false).
    { destruct (String.eqb (tag c) (ns "Period")) eqn:E; [|reflexivity].
      rewrite iter_unfold, E in E2. discriminate. }
    rewrite E1, E2, E3, Htag. simpl. auto.
Qed.

Lemma valid_timeseries_iter (timeseries : Element) :
  valid_timeseries timeseries = true ->
  iter (ns "TimeSeries") timeseries = [timeseries] /\
  iter (ns "Period") timeseries = findall "Period" timeseries /\
  iter (ns "Point") timeseries =
  flat_map (findall "Point") (findall "Period" timeseries) /\
  (findall "Period" timeseries = [] \/
   exists period, findall "Period" timeseries = [period] /\ valid_period period = true).
Proof.
  unfold valid_timeseries, schema_timeseries, single_period.
  rewrite !andb_true_iff. intros [[Htag Hch] Hone].
  apply String.eqb_eq in Htag.
  destruct (timeseries_children _ Hch) as (E1 & E2 & E3 & E4).
  destruct tags_differ as (_ & _ & _ & _ & H5 & H6).
  rewrite !iter_unfold, Htag, String.eqb_refl, H5, H6, E1. simpl.
  unfold findall, descendant. repeat split; auto.
  unfold child in Hone. rewrite <- E2 in Hone. apply Nat.leb_le in Hone.
  destruct (flat_map (iter (ns "Period")) (children timeseries)) as [|p [|p' l]].
  - now left.
  - right. exists p. split; [reflexivity|]. now inversion E3.
  - simpl in Hone. lia.
Qed.

Lemma mapM_valid_points (start_date : datetime) (points : list Element) :
  Forall (fun point => valid_point point = true) points ->
  exists lps,
    mapM (fun point =>
            let? quantity := point_quantity point in
            Return (mkLoadPoint (isoformat start_date) quantity)) points = Return lps /\
    Forall2 (fun point lp =>
               load_time lp = isoformat start_date /\
               point_quantity point = Return (load_kwh lp)) points lps.
Proof.
  induction 1 as [|point points Hp _ IH]; simpl.
  - exists []. split; [reflexivity|constructor].
  - destruct IH as [lps [E F]].
    unfold valid_point in Hp. rewrite !andb_true_iff in Hp. destruct Hp as [_ Hq].
    destruct (point_quantity point) as [q|e] eqn:Eq; [|discriminate]. simpl.
    rewrite E. simpl. eexists. split; [reflexivity|].
    constructor; [|exact F]. simpl. rewrite Eq. auto.
Qed.

Lemma first_period_points_valid (timeseries : Element) :
  valid_timeseries timeseries = true ->
  exists lps,
    first_period_points timeseries = Return lps /\
    Forall2 (fun pp lp => load_point_at (fst pp) (snd pp) lp)
            (flat_map (fun period => map (pair period) (findall "Point" period))
                      (findall "Period" timeseries))
            lps.
Proof.
  intros Hts. destruct (valid_timeseries_iter _ Hts) as (_ & _ & _ & [E|[period [E Hp]]]);
    unfold first_period_points; rewrite E; simpl.
  - exists []. split; [reflexivity|constructor].
  - destruct (valid_period_iter _ Hp) as (_ & _ & _ & Hpoints & [start_date Hstart]).
    rewrite Hstart. simpl.
    destruct (mapM_valid_points start_date _ Hpoints) as [lps [E' F]].
    exists lps. split; [exact E'|]. rewrite app_nil_r.
    clear E' Hpoints. induction F as [|point lp points lps [H1 H2] _ IH]; simpl; constructor.
    + exists start_date. simpl. auto.
    + exact IH.
Qed.

(** The children of the root. *)
Lemma document_children (cs : list Element) :
  forallb (fun c => valid_timeseries c || plain c) cs = true ->
  map snd (flat_map (fun period => map (pair period) (findall "Point" period))
                    (flat_map (iter (ns "Period")) cs))
  = flat_map (iter (ns "Point")) cs /\
  exists per_timeseries,
    mapM first_period_points (flat_map (iter (ns "TimeSeries")) cs) = Return per_timeseries /\
    Forall2 (fun pp lp => load_point_at (fst pp) (snd pp) lp)
            (flat_map (fun period => map (pair period) (findall "Point" period))
                      (flat_map (iter (ns "Period")) cs))
            (List.concat per_timeseries).
Proof.
  induction cs as [|c cs IH]; simpl.
  - intros _. split; [reflexivity|]. exists []. split; [reflexivity|constructor].
  - rewrite andb_true_iff, orb_true_iff. intros [Hc Hcs].
    destruct (IH Hcs) as (IHp & per & IHm & IHf). clear IH.
    rewrite !flat_map_app, map_app, IHp.
    destruct Hc as [Hc|Hc].
    + destruct (valid_timeseries_iter c Hc) as (E1 & E2 & E3 & _).
      destruct (first_period_points_valid c Hc) as [lps [Ef Ff]].
      rewrite E1, E2, E3. simpl. rewrite Ef. simpl. rewrite IHm. simpl. split.
      * f_equal. clear. induction (findall "Period" c) as [|p ps IH]; simpl; [reflexivity|].
        rewrite map_app, IH, map_map. simpl. now rewrite map_id.
      * exists (lps :: per). split; [reflexivity|]. simpl. now apply Forall2_app.
    + destruct (plain_iter c Hc) as (E1 & E2 & E3). rewrite E1, E2, E3. simpl.
      split; [reflexivity|]. now exists per.
Qed.

(** C4, amended. For a load document that follows the schema and in which no
    TimeSeries holds more than one Period, with N Point elements in its
    Periods, the parser returns exactly N load points, in document order and
    without merging or sorting: the k-th load point carries the start of the
    Period that encloses the k-th Point of the document, as [isoformat]
    prints it, with no offset for the position of the Point, and the
    quantity of that Point as [float] reads it. *)
Theorem parse_valid_document (root : Element) :
  valid_load_document root = true ->
  map snd (enclosed_points root) = findall "Point" root /\
  exists load_points,
    load_points_of root = Return load_points /\
    List.length load_points = List.length (findall "Point" root) /\
    Forall2 (fun pp lp => load_point_at (fst pp) (snd pp) lp)
            (enclosed_points root) load_points.
Proof.
  intros Hroot. destruct (document_children _ Hroot) as (Hp & per & Hm & Hf).
  split; [exact Hp|].
  exists (List.concat per). repeat split.
  - unfold load_points_of. rewrite for_timeseries_first_periods.
    unfold findall, descendant. now rewrite Hm.
  - apply Forall2_length in Hf. rewrite <- Hf.
    unfold findall at 2, descendant. rewrite <- Hp. now rewrite length_map.
  - exact Hf.
Qed.

(** *** Documents the parser cannot read *)

Lemma period_start_error (period : Element) (e : exn) :
  period_start period = Raise e -> field_error e.
Proof.
  unfold period_start, field_error.
  destruct (find_start period) as [el|]; [|intros [= <-]; auto].
  destruct (text el) as [s|]; [|intros [= <-]; auto].
  destruct (fromisoformat s); [discriminate|intros [= <-]; auto].
Qed.

Lemma point_quantity_error (point : Element) (e : exn) :
  point_quantity point = Raise e -> field_error e.
Proof.
  unfold point_quantity, field_error.
  destruct (find "quantity" point) as [el|]; [|intros [= <-]; auto].
  destruct (text el) as [s|]; [|intros [= <-]; auto].
  destruct (float_of_str s); [discriminate|intros [= <-]; auto].
Qed.

(** [mapM] raises what the first failing element raises. *)
Lemma mapM_raises {A B : Type} (f : A -> outcome B) (l : list A) :
  (exists a e, In a l /\ f a = Raise e) ->
  exists a e, In a l /\ f a = Raise e /\ mapM f l = Raise e.
Proof.
  induction l as [|x l IH]; intros (a & e & Hin & Hf); [contradiction|]. simpl.
  destruct (f x) as [b|e0] eqn:Ex.
  - destruct Hin as [->|Hin]; [congruence|].
    destruct IH as (a' & e' & Hin' & Hf' & Hm); [now exists a, e|].
    exists a', e'. rewrite Hm. auto.
  - exists x, e0. auto.
Qed.

Lemma mapM_raise_inv {A B : Type} (f : A -> outcome B) (l : list A) (e : exn) :
  mapM f l = Raise e -> exists a, In a l /\ f a = Raise e.
Proof.
  induction l as [|x l IH]; simpl; [discriminate|].
  destruct (f x) as [b|e0] eqn:Ex; simpl.
  - destruct (mapM f l) as [bs|e1]; simpl; [discriminate|].
    intros [= <-]. destruct IH as [a [Hin Hf]]; [reflexivity|]. exists a. auto.
  - intros [= <-]. exists x. auto.
Qed.

Lemma first_period_points_error (timeseries : Element) (e : exn) :
  first_period_points timeseries = Raise e -> field_error e.
Proof.
  unfold first_period_points.
  destruct (findall "Period" timeseries) as [|first later]; [discriminate|].
  destruct (period_start first) as [start_date|e0] eqn:Es; simpl.
  - intros Hm. apply mapM_raise_inv in Hm. destruct Hm as [point [_ Hq]].
    destruct (point_quantity point) eqn:Eq; [discriminate|].
    injection Hq as <-. exact (point_quantity_error _ _ Eq).
  - intros [= <-]. exact (period_start_error _ _ Es).
Qed.

Lemma malformed_period_raises (timeseries period : Element) :
  find "Period" timeseries = Some period ->
  malformed_period period ->
  exists e, first_period_points timeseries = Raise e.
Proof.
  unfold find, first_period_points.
  destruct (findall "Period" timeseries) as [|first later]; [discriminate|].
  intros [= ->] Hbad.
  destruct (period_start period) as [start_date|e0] eqn:Es; simpl; [|now exists e0].
  destruct Hbad as [[e He]|(point & e & Hin & Hq)]; [congruence|].
  destruct (mapM_raises
              (fun point => let? quantity := point_quantity point in
                            Return (mkLoadPoint (isoformat start_date) quantity))
              (findall "Point" period)) as (a' & e' & _ & _ & Hm).
  - exists point, e. split; [exact Hin|]. now rewrite Hq.
  - now exists e'.
Qed.

Lemma malformed_document_raises (root : Element) :
  (exists period, In period (visited_periods root) /\ malformed_period period) ->
  exists e, field_error e /\ load_points_of root = Raise e.
Proof.
  intros (period & Hin & Hbad). unfold visited_periods in Hin.
  apply in_flat_map in Hin. destruct Hin as (timeseries & Hts & Hin).
  destruct (find "Period" timeseries) as [p|] eqn:Ef; [|contradiction].
  destruct Hin as [->|[]].
  destruct (malformed_period_raises _ _ Ef Hbad) as [e He].
  destruct (mapM_raises first_period_points (findall "TimeSeries" root))
    as (ts' & e' & _ & He' & Hm); [now exists timeseries, e|].
  exists e'. split; [exact (first_period_points_error _ _ He')|].
  unfold load_points_of. rewrite for_timeseries_first_periods, Hm. reflexivity.
Qed.

(** What [get_entsoe_load] returns, reply by reply. *)
Lemma get_entsoe_load_result (w : World) (self : EnergyDataCollector)
    (start end_ : datetime) :
  result (get_entsoe_load w self start end_) =
  match http w entsoe_url [] (entsoe_params self start end_) with
  | Failed _ => Return []
  | Answered r =>
      if (400 <=? status_code r) && (status_code r <? 600) then Return []
      else
        match xml r with
        | None => Return []
        | Some root =>
            match load_points_of root with
            | Return load_points => Return load_points
            | Raise (RequestException _) | Raise ParseError => Return []
            | Raise e => Raise e
            end
        end
  end.
Proof.
  unfold get_entsoe_load, requests_get, raise_for_status, ET_fromstring.
  destruct (http w entsoe_url [] (entsoe_params self start end_)) as [k|r]; [reflexivity|].
  simpl. destruct ((400 <=? status_code r) && (status_code r <? 600)); [reflexivity|].
  destruct (xml r) as [root|]; [|reflexivity].
  simpl. destruct (load_points_of root) as [lps|[]]; reflexivity.
Qed.

Lemma get_entsoe_load_writes (w : World) (self : EnergyDataCollector)
    (start end_ : datetime) :
  writes (trace (get_entsoe_load w self start end_)) = [].
Proof.
  unfold get_entsoe_load, requests_get, raise_for_status, ET_fromstring.
  destruct (http w entsoe_url [] (entsoe_params self start end_)) as [k|r]; [reflexivity|].
  simpl. destruct ((400 <=? status_code r) && (status_code r <? 600)); [reflexivity|].
  destruct (xml r) as [root|]; [|reflexivity].
  simpl. destruct (load_points_of root) as [lps|[]]; reflexivity.
Qed.

(** C3, amended. A body that is not well-formed XML makes the load fetch
    return the empty list. A well-formed document in which a Period the
    parser visits has a missing, empty or unparsable start, or a Point with
    a missing, empty or non-numeric quantity, makes the load fetch raise
    [AttributeError], [TypeError] or [ValueError]: no clause of the fetch
    catches these, they leave [get_entsoe_load]. *)
Theorem malformed_load_document (w : World) (self : EnergyDataCollector)
    (start end_ : datetime) (r : Response) :
  http w entsoe_url [] (entsoe_params self start end_) = Answered r ->
  (xml r = None -> result (get_entsoe_load w self start end_) = Return []) /\
  (forall root,
      (400 <=? status_code r) && (status_code r <? 600) = false ->
      xml r = Some root ->
      (exists period, In period (visited_periods root) /\ malformed_period period) ->
      exists e, field_error e /\ result (get_entsoe_load w self start end_) = Raise e).
Proof.
  intros Hhttp. rewrite get_entsoe_load_result, Hhttp. split.
  - intros ->. now destruct ((400 <=? status_code r) && (status_code r <? 600)).
  - intros root -> -> Hbad.
    destruct (malformed_document_raises root Hbad) as (e & He & ->).
    exists e. split; [exact He|].
    destruct He as [->|[->| ->]]; reflexivity.
Qed.

End LoadDocument.

(** ** The intensity fetch *)

(** C6, as stated: a status outside 2xx does not always give 0. On
    [300 Multiple Choices] with the body [{"zone": "DE", "carbonIntensity":
    400.0}] the fetch returns 400.0. *)
Lemma intensity_on_status_300 :
  status_code (mkResponse 300 None (Some (intensity_json (PyNum (Float f400))))) = 300 /\
  result (get_co2_intensity multiple_choices_world demo_collector "DE")
  = Return (PyNum (Float f400)) /\
  result (get_co2_intensity multiple_choices_world demo_collector "DE")
  <> Return (PyNum (Int 0)).
Proof. repeat split. vm_compute. discriminate. Qed.

(** C6, amended. The intensity fetch returns 0, without raising, when the
    request fails, when the status is 4xx or 5xx (the statuses for which
    [raise_for_status] raises) and when the body is not JSON. For any other
    status it returns the [carbonIntensity] field of the JSON object, or 0
    when the object has no such field. *)
Theorem intensity_fetch (w : World) (self : EnergyDataCollector) (zone : string) :
  let fetched := result (get_co2_intensity w self zone) in
  match http w electricitymaps_url
             [("auth-token"%string, ELECTRICITYMAPS_API_KEY self)]
             [("zone"%string, Some zone)] with
  | Failed _ => fetched = Return (PyNum (Int 0))
  | Answered r =>
      if (400 <=? status_code r) && (status_code r <? 600)
      then fetched = Return (PyNum (Int 0))
      else
        match json r with
        | None => fetched = Return (PyNum (Int 0))
        | Some (PyDict d) =>
            match dict_lookup d "carbonIntensity" with
            | Some v => fetched = Return v
            | None => fetched = Return (PyNum (Int 0))
            end
        | Some _ => fetched = Raise AttributeError
        end
  end.
Proof.
  unfold get_co2_intensity, requests_get, raise_for_status, response_json, data_get,
    dict_get.
  destruct (http w electricitymaps_url _ _) as [k|r]; [reflexivity|].
  simpl. destruct ((400 <=? status_code r) && (status_code r <? 600)); [reflexivity|].
  destruct (json r) as [[| | | | |d]|]; try reflexivity.
  simpl. destruct (dict_lookup d "carbonIntensity"); reflexivity.
Qed.

Section Collection.
Context {py : CPython}.

Lemma get_co2_intensity_writes (w : World) (self : EnergyDataCollector) (zone : string) :
  writes (trace (get_co2_intensity w self zone)) = [].
Proof.
  unfold get_co2_intensity, requests_get, raise_for_status, response_json, data_get.
  destruct (http w electricitymaps_url _ _) as [k|r]; [reflexivity|].
  simpl. destruct ((400 <=? status_code r) && (status_code r <? 600)); [reflexivity|].
  destruct (json r) as [[| | | | |d]|]; reflexivity.
Qed.

(** ** The composition step *)

Lemma for_load_composed (co2_intensity : pyval) (price_data : list PricePoint)
    (c p : float64) :
  as_double co2_intensity = Return c ->
  number_value (broadcast_price price_data) = Return p ->
  forall load_data points,
  exists new_points,
    for_load load_data co2_intensity price_data points = Return (points ++ new_points) /\
    Forall2 (composed co2_intensity c (broadcast_price price_data) p) load_data new_points.
Proof.
  intros Hc Hp. induction load_data as [|load rest IH]; intros points; simpl.
  - exists []. rewrite app_nil_r. split; [reflexivity|constructor].
  - unfold mul_float, mul_number. rewrite Hc. simpl.
    assert (Hprice : price_eur_kwh match price_data with
                                   | p0 :: _ => p0
                                   | [] => mkPricePoint None (Int 0)
                                   end = broadcast_price price_data)
      by (destruct price_data; reflexivity).
    rewrite Hprice, Hp. simpl.
    destruct (IH (points ++
      [mkInfluxPoint "manufacturing_energy" (load_time load)
         (mkFields (fmul (load_kwh load) manufacturing_factor)
                   (fmul (fmul (load_kwh load) manufacturing_factor) c)
                   (fmul (fmul (load_kwh load) manufacturing_factor) p)
                   co2_intensity (broadcast_price price_data))]))
      as [new_points [E F]].
    eexists (_ :: new_points). rewrite E, <- app_assoc. split; [reflexivity|].
    constructor; [|exact F]. repeat split.
Qed.

(** C5. The composition step emits one record per load point, in order: the
    batch has the cardinality of the load series, the timestamp of every
    record is the timestamp of a load point, and each record has
    [energy_kwh = load_kwh * 0.23], [co2eq_g = energy_kwh * co2_intensity]
    and [cost_eur = energy_kwh * price_eur_kwh], with the one fetched
    intensity and the price of the first price point on every record. The
    products are those of binary64. *)
Theorem composition (load_data : list LoadPoint) (co2_intensity : pyval)
    (price_data : list PricePoint) (c p : float64) :
  load_data <> [] ->
  as_double co2_intensity = Return c ->
  number_value (broadcast_price price_data) = Return p ->
  exists points,
    prepare_points load_data co2_intensity price_data = Return points /\
    List.length points = List.length load_data /\
    Forall (fun point => exists load, In load load_data /\ time point = load_time load)
           points /\
    Forall2 (composed co2_intensity c (broadcast_price price_data) p) load_data points.
Proof.
  intros _ Hc Hp.
  destruct (for_load_composed _ _ _ _ Hc Hp load_data []) as [points [E F]].
  exists points. repeat split; [exact E| | |exact F].
  - symmetry. exact (Forall2_length F).
  - clear E. induction F as [|load point loads points Hh _ IH]; constructor.
    + exists load. split; [now left|]. apply Hh.
    + eapply Forall_impl; [|exact IH]. intros pt [ld [Hin Ht]].
      exists ld. split; [now right|exact Ht].
Qed.

Lemma fmul_zero (x : float64) (s : bool) :
  is_finite x = true -> is_zero (fmul x (S754_zero s)) = true.
Proof. destruct x; simpl; intros H; try discriminate; reflexivity. Qed.

(** C7, amended. Without load points the composition step returns the empty
    batch whatever the other inputs. Without price points it does not fail
    for want of a price: every record stores the price 0 and has
    [cost_eur = energy_kwh * 0], which is zero whenever [energy_kwh] is
    finite. *)
Theorem composition_defaults (load_data : list LoadPoint) (co2_intensity : pyval)
    (price_data : list PricePoint) :
  prepare_points [] co2_intensity price_data = Return [] /\
  forall c,
    as_double co2_intensity = Return c ->
    exists points,
      prepare_points load_data co2_intensity [] = Return points /\
      List.length points = List.length load_data /\
      Forall (fun point =>
                stored_price_eur_kwh (fields point) = Int 0 /\
                cost_eur (fields point)
                = fmul (energy_kwh (fields point)) (S754_zero false) /\
                (is_finite (energy_kwh (fields point)) = true ->
                 is_zero (cost_eur (fields point)) = true))
             points.
Proof.
  split; [reflexivity|]. intros c Hc.
  destruct (for_load_composed co2_intensity [] c (S754_zero false) Hc eq_refl load_data [])
    as [points [E F]].
  exists points. repeat split; [exact E|symmetry; exact (Forall2_length F)|].
  clear E. induction F as [|load point loads points Hh _ IH]; constructor; [|exact IH].
  destruct Hh as (_ & _ & _ & _ & Hcost & _ & Hprice).
  repeat split; [exact Hprice|exact Hcost|].
  intros Hfin. rewrite Hcost. now apply fmul_zero.
Qed.

(** ** The run *)

Lemma in_app_right (t1 t2 : list event) (ev : event) :
  In ev t2 -> In ev (t1 ++ t2).
Proof. intros H. apply in_or_app. now right. Qed.

(** C8, amended. When both fetches have returned and the composition has
    given a batch: an empty batch (as whenever the load fetch returned no
    point and the intensity fetch returned) makes the runner log the warning
    and not call [write_points] at all; a non-empty batch is handed to
    [write_points] in one call, whole, and nothing else is written. *)
Theorem write_once_or_warn (w : World) (self : EnergyDataCollector) (days_to_collect : Z)
    (start_utc end_utc : datetime) (load_data : list LoadPoint) (co2 : pyval)
    (batch : list InfluxPoint) :
  window (now w) days_to_collect = Return (start_utc, end_utc) ->
  result (get_entsoe_load w self start_utc end_utc) = Return load_data ->
  result (get_co2_intensity w self "DE") = Return co2 ->
  prepare_points load_data co2 (get_epex_prices start_utc end_utc) = Return batch ->
  let t := trace (collect_and_store_data w self days_to_collect) in
  (load_data = [] -> batch = []) /\
  (batch = [] -> writes t = [] /\ In (Log WARNING NoDataPointsToWrite) t) /\
  (batch <> [] -> writes t = [batch]).
Proof.
  intros Hwindow Hload Hco2 Hbatch t. subst t.
  split; [intros ->; unfold prepare_points in Hbatch; simpl in Hbatch; congruence|].
  unfold collect_and_store_data. rewrite Hwindow. cbn [lift bind].
  pose proof (get_entsoe_load_writes w self start_utc end_utc) as W1.
  pose proof (get_co2_intensity_writes w self "DE") as W2.
  unfold fetch_compose_write.
  destruct (get_entsoe_load w self start_utc end_utc) as [t1 r1].
  destruct (get_co2_intensity w self "DE") as [t2 r2].
  simpl in Hload, Hco2, W1, W2. subst r1 r2. cbn [bind lift].
  rewrite Hbatch. split.
  - intros ->. cbn. rewrite !writes_app, W1, W2. split; [reflexivity|].
    right. apply in_app_right, in_app_right. now left.
  - intros Hne. destruct batch as [|point batch]; [congruence|].
    unfold influx_write_points.
    destruct (write_points w (point :: batch)); cbn;
      rewrite !writes_app, W1, W2; reflexivity.
Qed.

(** X18. No run writes twice: the batch goes to the database whole or not
    at all. *)
Lemma at_most_one_write (w : World) (self : EnergyDataCollector) (days_to_collect : Z) :
  (List.length (writes (trace (collect_and_store_data w self days_to_collect))) <= 1)%nat.
Proof.
  unfold collect_and_store_data.
  destruct (window (now w) days_to_collect) as [[start_utc end_utc]|e];
    cbn [lift bind]; [|simpl; lia].
  pose proof (get_entsoe_load_writes w self start_utc end_utc) as W1.
  pose proof (get_co2_intensity_writes w self "DE") as W2.
  unfold fetch_compose_write.
  destruct (get_entsoe_load w self start_utc end_utc) as [t1 [load_data|e1]];
    destruct (get_co2_intensity w self "DE") as [t2 [co2|e2]];
    simpl in W1, W2; cbn [bind lift];
    try (cbn; rewrite ?writes_app, ?W1, ?W2; simpl; lia).
  destruct (prepare_points load_data co2 (get_epex_prices start_utc end_utc))
    as [[|point batch]|e3]; unfold influx_write_points;
    try destruct (write_points w (point :: batch));
    cbn; rewrite ?writes_app, ?W1, ?W2; simpl; lia.
Qed.

(** C9. Whatever the fetch, parse, compose and write phases raise, the run
    catches it in its one handler, logs it and returns normally. *)
Theorem run_never_raises (w : World) (self : EnergyDataCollector) (days_to_collect : Z)
    (start_utc end_utc : datetime) :
  window (now w) days_to_collect = Return (start_utc, end_utc) ->
  result (collect_and_store_data w self days_to_collect) = Return tt /\
  forall e,
    result (fetch_compose_write w self start_utc end_utc) = Raise e ->
    In (Log ERROR (DataCollectionFailed e))
       (trace (collect_and_store_data w self days_to_collect)).
Proof.
  intros Hwindow. unfold collect_and_store_data. rewrite Hwindow. cbn [lift bind].
  destruct (fetch_compose_write w self start_utc end_utc) as [t [[]|e]]; simpl.
  - split; [reflexivity|]. intros e; discriminate.
  - split; [reflexivity|]. intros e' [= <-]. right.
    apply in_or_app. right. now left.
Qed.

End Collection.

(** An infinite load is what the parser reads from the quantity [1e999]. *)
Example infinite_quantity_is_read :
  load_points_of (py := Reference.builtins) infinite_load_document = Return [infinite_load].
Proof. reflexivity. Qed.

(** C7, as stated: with no price points [cost_eur] is not 0 on every
    record. A load of infinity gives [energy_kwh = inf] and
    [cost_eur = inf * 0 = nan]. *)
Lemma cost_of_infinite_load_is_nan :
  exists point,
    prepare_points [infinite_load] (PyNum (Float f400)) [] = Return [point] /\
    stored_price_eur_kwh (fields point) = Int 0 /\
    cost_eur (fields point) = S754_nan /\
    is_zero (cost_eur (fields point)) = false.
Proof. eexists. repeat split. Qed.

(** ** The theorems at work on the example documents *)

(** The two literals are the doubles nearest to 0.23 and 0.10, and what the
    reference [float] reads from their text. *)
Lemma literals :
  Z.abs (100 * 8286623314361713 - 23 * 2 ^ 55) <= 50 /\
  Z.abs (10 * 7205759403792794 - 2 ^ 56) <= 5 /\
  Reference.float_of_str "0.23" = Some manufacturing_factor /\
  Reference.float_of_str "0.10" = Some example_price.
Proof. repeat split; vm_compute; congruence. Qed.

(** The end-to-end scenario of the specification: quantities 100.0 and
    200.0 at intensity 400.0 and price 0.10 give the energies 23.0 and 46.0
    and the emissions 9200.0 and 18400.0. *)
Example end_to_end :
  map (fun point => (energy_kwh (fields point), co2eq_g (fields point))) demo_batch
  = [(S754_finite false 6473924464345088 (-48), S754_finite false 5057753487769600 (-39));
     (S754_finite false 6473924464345088 (-47), S754_finite false 5057753487769600 (-38))] /\
  Reference.float_of_str "23.0" = Some (S754_finite false 6473924464345088 (-48)) /\
  Reference.float_of_str "9200.0" = Some (S754_finite false 5057753487769600 (-39)) /\
  writes (trace (collect_and_store_data (py := Reference.builtins)
                   demo_world demo_collector 7)) = [demo_batch].
Proof. repeat split. Qed.

(** The window is computed before the [try]: an [OverflowError] of the date
    arithmetic leaves the function. *)
Example window_overflow_escapes :
  result (collect_and_store_data (py := Reference.builtins)
            demo_world demo_collector 1000000) = Raise OverflowError.
Proof. reflexivity. Qed.

(** C3, as stated: a Point whose quantity is not a number does not give the
    empty list; the [ValueError] of [float] leaves [get_entsoe_load]. *)
Lemma unreadable_quantity_escapes :
  result (get_entsoe_load (py := Reference.builtins)
            bad_quantity_world demo_collector demo_start demo_end)
  = Raise ValueError /\
  result (get_entsoe_load (py := Reference.builtins)
            bad_quantity_world demo_collector demo_start demo_end)
  <> Return [].
Proof. split; [reflexivity|]. vm_compute. discriminate. Qed.

(** A Period without a start: [None.text] is an [AttributeError]. *)
Example missing_start_escapes :
  load_points_of (py := Reference.builtins) missing_start_document = Raise AttributeError.
Proof. reflexivity. Qed.

Lemma malformed_load_document_witness :
  http bad_quantity_world entsoe_url []
       (entsoe_params demo_collector demo_start demo_end)
  = Answered (mkResponse 200 (Some bad_quantity_document) None) /\
  exists e,
    field_error e /\
    result (get_entsoe_load (py := Reference.builtins)
              bad_quantity_world demo_collector demo_start demo_end) = Raise e.
Proof.
  split; [reflexivity|].
  apply (proj2 (malformed_load_document (py := Reference.builtins)
                  bad_quantity_world demo_collector demo_start demo_end
                  (mkResponse 200 (Some bad_quantity_document) None) eq_refl)
               bad_quantity_document); [reflexivity|reflexivity|].
  exists bad_period. split; [vm_compute; left; reflexivity|].
  right. exists bad_point, ValueError. split; [vm_compute; left; reflexivity|reflexivity].
Defined.

Lemma parse_valid_document_witness :
  valid_load_document (py := Reference.builtins) two_point_document = true /\
  map snd (enclosed_points two_point_document) = findall "Point" two_point_document /\
  exists load_points,
    load_points_of (py := Reference.builtins) two_point_document = Return load_points /\
    List.length load_points = List.length (findall "Point" two_point_document) /\
    Forall2 (fun pp lp => load_point_at (py := Reference.builtins) (fst pp) (snd pp) lp)
            (enclosed_points two_point_document) load_points.
Proof.
  split; [vm_compute; reflexivity|].
  apply (parse_valid_document (py := Reference.builtins) two_point_document).
  vm_compute. reflexivity.
Defined.

Lemma later_periods_are_dropped_witness :
  In two_period_timeseries (findall "TimeSeries" two_period_document) /\
  findall "Period" two_period_timeseries = [first_period; second_period] /\
  load_points_of (py := Reference.builtins) two_period_document
  = first_periods_only (py := Reference.builtins) two_period_document /\
  first_period_points (py := Reference.builtins) two_period_timeseries
  = first_period_points (py := Reference.builtins)
      (mkElement (tag two_period_timeseries) (text two_period_timeseries) [first_period]).
Proof.
  assert (H1 : In two_period_timeseries (findall "TimeSeries" two_period_document))
    by (vm_compute; left; reflexivity).
  assert (H2 : findall "Period" two_period_timeseries = [first_period; second_period])
    by (vm_compute; reflexivity).
  split; [exact H1|]. split; [exact H2|].
  exact (later_periods_are_dropped (py := Reference.builtins)
           two_period_document two_period_timeseries first_period second_period [] H1 H2).
Defined.

(** C4, as stated: a document of the schema with 3 Points in 2 Periods of
    one TimeSeries gives 2 load points, those of the first Period. *)
Lemma two_periods_three_points :
  schema_document (py := Reference.builtins) two_period_document = true /\
  List.length (findall "Period" two_period_document) = 2%nat /\
  List.length (findall "Point" two_period_document) = 3%nat /\
  load_points_of (py := Reference.builtins) two_period_document = Return demo_load_data /\
  List.length demo_load_data = 2%nat.
Proof. repeat split. Qed.

Lemma composition_witness :
  demo_load_data <> [] /\
  as_double (PyNum (Float f400)) = Return f400 /\
  number_value (broadcast_price (get_epex_prices demo_start demo_end))
  = Return example_price /\
  exists points,
    prepare_points demo_load_data (PyNum (Float f400))
                   (get_epex_prices demo_start demo_end) = Return points /\
    List.length points = List.length demo_load_data /\
    Forall (fun point =>
              exists load, In load demo_load_data /\ time point = load_time load) points /\
    Forall2 (composed (PyNum (Float f400)) f400
               (broadcast_price (get_epex_prices demo_start demo_end)) example_price)
            demo_load_data points.
Proof.
  assert (H : demo_load_data <> []) by (vm_compute; discriminate).
  split; [exact H|]. split; [reflexivity|]. split; [reflexivity|].
  exact (composition demo_load_data (PyNum (Float f400))
           (get_epex_prices demo_start demo_end) f400 example_price
           H eq_refl eq_refl).
Defined.

Lemma composition_defaults_witness :
  as_double (PyNum (Float f400)) = Return f400 /\
  prepare_points [] (PyNum (Float f400)) (get_epex_prices demo_start demo_end) = Return [] /\
  exists points,
    prepare_points demo_load_data (PyNum (Float f400)) [] = Return points /\
    List.length points = List.length demo_load_data /\
    Forall (fun point =>
              stored_price_eur_kwh (fields point) = Int 0 /\
              cost_eur (fields point)
              = fmul (energy_kwh (fields point)) (S754_zero false) /\
              (is_finite (energy_kwh (fields point)) = true ->
               is_zero (cost_eur (fields point)) = true))
           points.
Proof.
  split; [reflexivity|].
  destruct (composition_defaults demo_load_data (PyNum (Float f400))
              (get_epex_prices demo_start demo_end)) as [H1 H2].
  split; [exact H1|]. exact (H2 f400 eq_refl).
Defined.

Lemma write_once_or_warn_witness :
  window (now demo_world) 7 = Return (demo_start, demo_end) /\
  result (get_entsoe_load (py := Reference.builtins)
            demo_world demo_collector demo_start demo_end) = Return demo_load_data /\
  result (get_co2_intensity demo_world demo_collector "DE") = Return (PyNum (Float f400)) /\
  prepare_points demo_load_data (PyNum (Float f400)) (get_epex_prices demo_start demo_end)
  = Return demo_batch /\
  (demo_load_data = [] -> demo_batch = []) /\
  (demo_batch = [] ->
   writes (trace (collect_and_store_data (py := Reference.builtins)
                    demo_world demo_collector 7)) = [] /\
   In (Log WARNING NoDataPointsToWrite)
      (trace (collect_and_store_data (py := Reference.builtins)
                demo_world demo_collector 7))) /\
  (demo_batch <> [] ->
   writes (trace (collect_and_store_data (py := Reference.builtins)
                    demo_world demo_collector 7)) = [demo_batch]).
Proof.
  split; [reflexivity|]. split; [reflexivity|]. split; [reflexivity|].
  split; [reflexivity|].
  exact (write_once_or_warn (py := Reference.builtins) demo_world demo_collector 7
           demo_start demo_end demo_load_data (PyNum (Float f400)) demo_batch
           eq_refl eq_refl eq_refl eq_refl).
Defined.

(** C8, as stated: the load fetch returns no point and yet no warning is
    logged. Electricity Maps answers with a JSON list, [data.get] raises
    [AttributeError], which the intensity fetch does not catch; the handler
    of the run logs the failure, and the line of the warning is never
    reached. Nothing is written. *)
Lemma no_warning_when_the_intensity_fetch_raises :
  result (get_entsoe_load (py := Reference.builtins)
            list_body_world demo_collector demo_start demo_end) = Return [] /\
  result (get_co2_intensity list_body_world demo_collector "DE") = Raise AttributeError /\
  ~ In (Log WARNING NoDataPointsToWrite)
       (trace (collect_and_store_data (py := Reference.builtins)
                 list_body_world demo_collector 7)) /\
  In (Log ERROR (DataCollectionFailed AttributeError))
     (trace (collect_and_store_data (py := Reference.builtins)
               list_body_world demo_collector 7)) /\
  writes (trace (collect_and_store_data (py := Reference.builtins)
                   list_body_world demo_collector 7)) = [].
Proof.
  split; [reflexivity|]. split; [reflexivity|]. split; [|split; [|reflexivity]].
  - vm_compute. intros H.
    repeat (destruct H as [H|H]; [discriminate H|]). exact H.
  - vm_compute. do 7 right. left. reflexivity.
Qed.

Lemma run_never_raises_witness :
  window (now bad_quantity_world) 7 = Return (demo_start, demo_end) /\
  result (collect_and_store_data (py := Reference.builtins)
            bad_quantity_world demo_collector 7) = Return tt /\
  forall e,
    result (fetch_compose_write (py := Reference.builtins)
              bad_quantity_world demo_collector demo_start demo_end) = Raise e ->
    In (Log ERROR (DataCollectionFailed e))
       (trace (collect_and_store_data (py := Reference.builtins)
                 bad_quantity_world demo_collector 7)).
Proof.
  split; [reflexivity|].
  exact (run_never_raises (py := Reference.builtins) bad_quantity_world demo_collector 7
           demo_start demo_end eq_refl).
Defined.

(** In that world the [ValueError] of the parser is what the run logs. *)
Example unreadable_quantity_is_logged :
  result (fetch_compose_write (py := Reference.builtins)
            bad_quantity_world demo_collector demo_start demo_end) = Raise ValueError /\
  collect_and_store_data (py := Reference.builtins) bad_quantity_world demo_collector 7
  = ([Log INFO (RequestingData demo_start demo_end);
      Log INFO (MakingEntsoeRequest (entsoe_params demo_collector demo_start demo_end));
      HttpGet entsoe_url [] (entsoe_params demo_collector demo_start demo_end);
      Log INFO (ResponseStatus 200);
      Log INFO RequestURL;
      Log ERROR (DataCollectionFailed ValueError)],
     Return tt).
Proof. split; reflexivity. Qed.

(** * Further properties of the script *)

(** ** The calendar behind the window *)

Lemma days_before_year_split (a b c d : Z) :
  0 <= b < 4 -> 0 <= c < 25 -> 0 <= d < 4 ->
  days_before_year (400 * a + 100 * b + 4 * c + d + 1)
  = 146097 * a + 36524 * b + 1461 * c + 365 * d.
Proof.
  intros Hb Hc Hd. unfold days_before_year.
  Z.to_euclidean_division_equations. lia.
Qed.

Lemma is_leap_split (a b c d : Z) :
  0 <= b < 4 -> 0 <= c < 25 -> 0 <= d < 4 ->
  is_leap (400 * a + 100 * b + 4 * c + d + 1)
  = (d =? 3) && (negb (c =? 24) || (b =? 3)).
Proof.
  intros Hb Hc Hd. unfold is_leap.
  destruct (Z.eqb_spec d 3), (Z.eqb_spec c 24), (Z.eqb_spec b 3);
    destruct (Z.eqb_spec ((400 * a + 100 * b + 4 * c + d + 1) mod 4) 0);
    destruct (Z.eqb_spec ((400 * a + 100 * b + 4 * c + d + 1) mod 100) 0);
    destruct (Z.eqb_spec ((400 * a + 100 * b + 4 * c + d + 1) mod 400) 0);
    simpl; try reflexivity; exfalso;
    Z.to_euclidean_division_equations; lia.
Qed.

Ltac table_lookup :=
  repeat match goal with
         | |- context [nth (Z.to_nat ?k) ?l 0] =>
             let v := eval vm_compute in (nth (Z.to_nat k) l 0) in
             change (nth (Z.to_nat k) l 0) with v
         | |- context [Z.b2z ?b] =>
             let v := eval cbv in (Z.b2z b) in
             change (Z.b2z b) with v
         end.

(** The month and the day [ord2ymd] finds for the day [r] of a year. *)
Lemma month_of_day (leap : bool) (r : Z) :
  0 <= r < 365 ->
  let m := Z.shiftr (r + 50) 5 in
  let preceding := nth (Z.to_nat m) DAYS_BEFORE_MONTH 0 + Z.b2z ((2 <? m) && leap) in
  (if r <? preceding
   then nth (Z.to_nat (m - 1)) DAYS_BEFORE_MONTH 0 + Z.b2z ((2 <? m - 1) && leap)
        + (r - (preceding - (nth (Z.to_nat (m - 1)) DAYS_IN_MONTH 0
                             + Z.b2z ((m - 1 =? 2) && leap))) + 1)
   else nth (Z.to_nat m) DAYS_BEFORE_MONTH 0 + Z.b2z ((2 <? m) && leap)
        + (r - preceding + 1))
  = r + 1.
Proof.
  intros Hr. rewrite Z.shiftr_div_pow2 by lia. change (2 ^ 5) with 32.
  remember ((r + 50) / 32) as m eqn:Hm. cbv zeta.
  assert (Hrange : 32 * m <= r + 50 < 32 * m + 32)
    by (subst m; Z.to_euclidean_division_equations; lia).
  assert (Hcases : m = 1 \/ m = 2 \/ m = 3 \/ m = 4 \/ m = 5 \/ m = 6 \/ m = 7 \/
                   m = 8 \/ m = 9 \/ m = 10 \/ m = 11 \/ m = 12) by lia.
  clear Hm.
  destruct Hcases as [->|[->|[->|[->|[->|[->|[->|[->|[->|[->|[->| ->]]]]]]]]]]];
    destruct leap; table_lookup;
    match goal with |- context [?x <? ?y] => destruct (Z.ltb_spec x y) end; lia.
Qed.

(** [date.fromordinal(n).toordinal() == n]. *)
Lemma ymd2ord_ord2ymd (n : Z) :
  1 <= n -> let '(y, m, d) := ord2ymd n in ymd2ord y m d = n.
Proof.
  intros Hn. unfold ord2ymd, DI400Y, DI100Y, DI4Y. cbv zeta.
  remember (n - 1) as k eqn:Hk.
  remember (k / 146097) as a eqn:Ha. remember (k mod 146097) as r400 eqn:Hr400.
  remember (r400 / 36524) as b eqn:Hb. remember (r400 mod 36524) as r100 eqn:Hr100.
  remember (r100 / 1461) as c eqn:Hc. remember (r100 mod 1461) as r4 eqn:Hr4.
  remember (r4 / 365) as d eqn:Hd. remember (r4 mod 365) as r1 eqn:Hr1.
  assert (F400 : k = 146097 * a + r400 /\ 0 <= r400 < 146097)
    by (subst a r400; Z.to_euclidean_division_equations; lia).
  assert (F100 : r400 = 36524 * b + r100 /\ 0 <= r100 < 36524)
    by (subst b r100; Z.to_euclidean_division_equations; lia).
  assert (F4 : r100 = 1461 * c + r4 /\ 0 <= r4 < 1461)
    by (subst c r4; Z.to_euclidean_division_equations; lia).
  assert (F1 : r4 = 365 * d + r1 /\ 0 <= r1 < 365)
    by (subst d r1; Z.to_euclidean_division_equations; lia).
  clear Ha Hr400 Hb Hr100 Hc Hr4 Hd Hr1.
  assert (Hbs : 0 <= b <= 4) by lia.
  assert (Hcs : 0 <= c < 25) by lia.
  assert (Hds : 0 <= d <= 4) by lia.
  destruct (Z.eqb_spec d 4) as [Ed|Ed]; [|destruct (Z.eqb_spec b 4) as [Eb|Eb]]; cbn [orb].
  - (* the last day of a leap year *)
    replace (a * 400 + 1 + b * 100 + c * 4 + d - 1)
      with (400 * a + 100 * b + 4 * c + 3 + 1) by lia.
    unfold ymd2ord, days_before_month.
    rewrite days_before_year_split, is_leap_split by lia.
    destruct (Z.eqb_spec c 24); [lia|]. table_lookup. lia.
  - (* the last day of a cycle of 400 years *)
    replace (a * 400 + 1 + b * 100 + c * 4 + d - 1)
      with (400 * a + 100 * 3 + 4 * 24 + 3 + 1) by lia.
    unfold ymd2ord, days_before_month.
    rewrite days_before_year_split, is_leap_split by lia. table_lookup. lia.
  - pose proof (month_of_day ((d =? 3) && (negb (c =? 24) || (b =? 3))) r1 (proj2 F1)) as Hm.
    cbv zeta in Hm.
    replace (a * 400 + 1 + b * 100 + c * 4 + d)
      with (400 * a + 100 * b + 4 * c + d + 1) by lia.
    destruct (r1 <? _); unfold ymd2ord, days_before_month;
      rewrite days_before_year_split, is_leap_split by lia; lia.
Qed.

Lemma sub_days_in_range (dt : datetime) (d : Z) :
  0 < toordinal dt - d <= MAXORDINAL ->
  Z.abs d <= 999999999 ->
  exists dt',
    sub_days dt d = Return dt' /\
    toordinal dt' = toordinal dt - d /\
    time_of dt' = time_of dt /\
    utcoffset dt' = utcoffset dt.
Proof.
  intros Hrange Hd. unfold sub_days, timedelta_days.
  destruct (Z.ltb_spec 999999999 (Z.abs d)); [lia|]. cbn [bindO].
  destruct (Z.ltb_spec 0 (toordinal dt - d)); [|lia].
  destruct (Z.leb_spec (toordinal dt - d) MAXORDINAL); [|lia]. cbn [andb].
  pose proof (ymd2ord_ord2ymd (toordinal dt - d)) as R.
  destruct (ord2ymd (toordinal dt - d)) as [[y m] d'].
  eexists. split; [reflexivity|]. repeat split. apply R. lia.
Qed.

Lemma sub_days_out_of_range (dt : datetime) (d : Z) :
  ~ (0 < toordinal dt - d <= MAXORDINAL) ->
  sub_days dt d = Raise OverflowError.
Proof.
  intros Hrange. unfold sub_days, timedelta_days.
  destruct (Z.ltb_spec 999999999 (Z.abs d)); [reflexivity|]. cbn [bindO].
  destruct (Z.ltb_spec 0 (toordinal dt - d)); [|reflexivity].
  destruct (Z.leb_spec (toordinal dt - d) MAXORDINAL); [lia|reflexivity].
Qed.

Lemma window_in_range (today_utc : datetime) (days_to_collect : Z) :
  1 < toordinal today_utc <= MAXORDINAL + 1 ->
  0 < toordinal today_utc - days_to_collect <= MAXORDINAL ->
  exists start_utc end_utc,
    window today_utc days_to_collect = Return (start_utc, end_utc) /\
    toordinal end_utc = toordinal today_utc - 1 /\
    toordinal start_utc = toordinal today_utc - days_to_collect /\
    time_of start_utc = (0, 0, 0, 0) /\
    time_of end_utc = (23, 59, 59, 999999) /\
    utcoffset start_utc = utcoffset today_utc /\
    utcoffset end_utc = utcoffset today_utc.
Proof.
  intros Htoday Hdays. unfold window.
  destruct (sub_days_in_range (replace_time today_utc 0 0 0 0) 1)
    as (end0 & E0 & O0 & _ & Z0);
    [change (toordinal (replace_time today_utc 0 0 0 0)) with (toordinal today_utc); lia
    |lia|].
  rewrite E0. cbn [bindO].
  change (toordinal (replace_time today_utc 0 0 0 0)) with (toordinal today_utc) in O0.
  destruct (sub_days_in_range (replace_time end0 23 59 59 999999) (days_to_collect - 1))
    as (start0 & E1 & O1 & _ & Z1).
  - change (toordinal (replace_time end0 23 59 59 999999)) with (toordinal end0).
    rewrite O0. lia.
  - unfold MAXORDINAL in *. lia.
  - rewrite E1. cbn [bindO].
    change (toordinal (replace_time end0 23 59 59 999999)) with (toordinal end0) in O1.
    do 2 eexists. split; [reflexivity|].
    repeat split; try reflexivity.
    + exact O0.
    + change (toordinal (replace_time start0 0 0 0 0)) with (toordinal start0). lia.
    + simpl in *. congruence.
    + exact Z0.
Qed.

(** X1. For every invocation date after 0001-01-01 and every positive
    number of days that does not reach back before year 1, the window ends
    on the day before the invocation at 23:59:59.999999, starts at 00:00:00
    and covers exactly [days_to_collect] calendar days, in the time zone of
    the invocation. *)
Theorem window_whole_days (today_utc : datetime) (days_to_collect : Z) :
  1 < toordinal today_utc <= MAXORDINAL + 1 ->
  1 <= days_to_collect < toordinal today_utc ->
  exists start_utc end_utc,
    window today_utc days_to_collect = Return (start_utc, end_utc) /\
    toordinal end_utc = toordinal today_utc - 1 /\
    toordinal end_utc - toordinal start_utc + 1 = days_to_collect /\
    time_of start_utc = (0, 0, 0, 0) /\
    time_of end_utc = (23, 59, 59, 999999) /\
    utcoffset start_utc = utcoffset today_utc /\
    utcoffset end_utc = utcoffset today_utc.
Proof.
  intros Htoday Hdays.
  destruct (window_in_range today_utc days_to_collect Htoday)
    as (s & e & W & Oe & Os & Ts & Te & Zs & Ze); [unfold MAXORDINAL in *; lia|].
  exists s, e. repeat split; auto. lia.
Qed.


(** X3. When [days_to_collect] reaches back to before 0001-01-01 (or, for a
    negative number, past 9999-12-31) the window is an [OverflowError]. *)
Theorem window_out_of_range (today_utc : datetime) (days_to_collect : Z) :
  1 < toordinal today_utc <= MAXORDINAL + 1 ->
  ~ (0 < toordinal today_utc - days_to_collect <= MAXORDINAL) ->
  window today_utc days_to_collect = Raise OverflowError.
Proof.
  intros Htoday Hdays. unfold window.
  destruct (sub_days_in_range (replace_time today_utc 0 0 0 0) 1)
    as (end0 & E0 & O0 & _);
    [change (toordinal (replace_time today_utc 0 0 0 0)) with (toordinal today_utc); lia
    |lia|].
  rewrite E0. cbn [bindO].
  change (toordinal (replace_time today_utc 0 0 0 0)) with (toordinal today_utc) in O0.
  rewrite sub_days_out_of_range; [reflexivity|].
  change (toordinal (replace_time end0 23 59 59 999999)) with (toordinal end0).
  rewrite O0. lia.
Qed.

(** ** The load fetch *)

Section MoreLoadDocument.
Context {py : CPython}.

(** X4. When the request itself fails, the load fetch logs the failure and
    returns the empty list: one request, no retry, nothing else. *)
Theorem load_fetch_request_failure (w : World) (self : EnergyDataCollector)
    (start end_ : datetime) (k : request_failure) :
  http w entsoe_url [] (entsoe_params self start end_) = Failed k ->
  get_entsoe_load w self start end_
  = ([Log INFO (MakingEntsoeRequest (entsoe_params self start end_));
      HttpGet entsoe_url [] (entsoe_params self start end_);
      Log ERROR (EntsoeRequestFailed (RequestException k))],
     Return []).
Proof.
  intros Hhttp. unfold get_entsoe_load, requests_get. rewrite Hhttp. reflexivity.
Qed.

(** X5. On a 4xx or 5xx status the load fetch returns the empty list and
    logs an [HTTPError]; the body is not parsed, even when it is a readable
    document. *)
Theorem load_fetch_error_status (w : World) (self : EnergyDataCollector)
    (start end_ : datetime) (r : Response) :
  http w entsoe_url [] (entsoe_params self start end_) = Answered r ->
  400 <= status_code r < 600 ->
  get_entsoe_load w self start end_
  = ([Log INFO (MakingEntsoeRequest (entsoe_params self start end_));
      HttpGet entsoe_url [] (entsoe_params self start end_);
      Log INFO (ResponseStatus (status_code r));
      Log INFO RequestURL;
      Log ERROR (EntsoeRequestFailed (RequestException (HTTPError (status_code r))))],
     Return []).
Proof.
  intros Hhttp Hstatus. unfold get_entsoe_load, requests_get, raise_for_status.
  rewrite Hhttp. simpl.
  destruct (Z.leb_spec 400 (status_code r)); [|lia].
  destruct (Z.ltb_spec (status_code r) 600); [|lia]. reflexivity.
Qed.

Lemma mapM_returns {A B : Type} (f : A -> outcome B) (l : list A) :
  (forall a, In a l -> exists b, f a = Return b) ->
  exists bs, mapM f l = Return bs.
Proof.
  induction l as [|a l IH]; intros H; simpl; [now exists []|].
  destruct (H a) as [b Hb]; [now left|]. rewrite Hb. simpl.
  destruct IH as [bs Hbs]; [intros x Hx; apply H; now right|].
  rewrite Hbs. simpl. now eexists.
Qed.

Lemma mapM_Forall2 {A B : Type} (f : A -> outcome B) (l : list A) :
  forall bs, mapM f l = Return bs -> Forall2 (fun a b => f a = Return b) l bs.
Proof.
  induction l as [|a l IH]; simpl; intros bs H.
  - injection H as <-. constructor.
  - destruct (f a) as [b|e] eqn:Ea; simpl in H; [|discriminate].
    destruct (mapM f l) as [bs'|e]; simpl in H; [|discriminate].
    injection H as <-. constructor; auto.
Qed.

(** X6. The parser returns a list exactly when every Period it visits (the
    first Period of each TimeSeries) has a start it can read and only
    Points with a quantity it can read; Periods it does not visit may hold
    anything. *)
Theorem parser_returns_iff (root : Element) :
  (exists load_points, load_points_of root = Return load_points) <->
  (forall period, In period (visited_periods root) -> ~ malformed_period period).
Proof.
  split.
  - intros [lps H] period Hin Hbad.
    destruct (malformed_document_raises root) as (e & _ & He); [now exists period|].
    congruence.
  - intros Hgood. unfold load_points_of. rewrite for_timeseries_first_periods.
    destruct (mapM_returns first_period_points (findall "TimeSeries" root))
      as [per Hper]; [|rewrite Hper; now eexists].
    intros ts Hts. unfold first_period_points.
    destruct (findall "Period" ts) as [|first later] eqn:E; [now eexists|].
    assert (Hvisited : In first (visited_periods root)).
    { unfold visited_periods. apply in_flat_map. exists ts. split; [exact Hts|].
      unfold find. rewrite E. now left. }
    specialize (Hgood first Hvisited).
    destruct (period_start first) as [start_date|e] eqn:Es;
      [|exfalso; apply Hgood; left; now exists e].
    simpl. apply mapM_returns. intros point Hpoint.
    destruct (point_quantity point) as [q|e] eqn:Eq; [now eexists|].
    exfalso. apply Hgood. right. now exists point, e.
Qed.

Lemma first_period_points_visited (timeseries : Element) (lps : list LoadPoint) :
  first_period_points timeseries = Return lps ->
  Forall2 (fun pp lp => load_point_at (fst pp) (snd pp) lp)
          (flat_map (fun period => map (pair period) (findall "Point" period))
                    match find "Period" timeseries with
                    | Some period => [period]
                    | None => []
                    end)
          lps.
Proof.
  unfold first_period_points, find.
  destruct (findall "Period" timeseries) as [|first later]; simpl.
  - intros [= <-]. constructor.
  - destruct (period_start first) as [start_date|e] eqn:Es; simpl; [|discriminate].
    intros Hm. apply mapM_Forall2 in Hm. rewrite app_nil_r.
    induction Hm as [|point lp points lps Hq _ IH]; simpl; constructor; [|exact IH].
    destruct (point_quantity point) as [q|e] eqn:Eq; simpl in Hq; [|discriminate].
    injection Hq as <-. exists start_date. simpl. auto.
Qed.

(** X7. For every document, valid or not: when the parser returns, its load
    points are, one for one and in order, the Points of the Periods it
    visited, each with the start of its Period as timestamp (so all the
    Points of a Period share one timestamp) and its own quantity. *)
Theorem load_points_per_visited_period (root : Element) (load_points : list LoadPoint) :
  load_points_of root = Return load_points ->
  Forall2 (fun pp lp => load_point_at (fst pp) (snd pp) lp)
          (flat_map (fun period => map (pair period) (findall "Point" period))
                    (visited_periods root))
          load_points.
Proof.
  unfold load_points_of, visited_periods. rewrite for_timeseries_first_periods.
  generalize (findall "TimeSeries" root) as tss. intros tss.
  destruct (mapM first_period_points tss) as [per|e] eqn:Em; simpl; [|discriminate].
  intros [= <-]. revert per Em.
  induction tss as [|ts tss IH]; simpl; intros per Em.
  - injection Em as <-. constructor.
  - destruct (first_period_points ts) as [lps|e] eqn:Ets; simpl in Em; [|discriminate].
    destruct (mapM first_period_points tss) as [per'|e]; simpl in Em; [|discriminate].
    injection Em as <-. simpl. rewrite flat_map_app.
    apply Forall2_app; [exact (first_period_points_visited _ _ Ets)|now apply IH].
Qed.

End MoreLoadDocument.

(** ** The run, request by request *)

Lemma requests_made_app (t1 t2 : list event) :
  requests_made (t1 ++ t2) = requests_made t1 ++ requests_made t2.
Proof.
  induction t1 as [|ev t1 IH]; simpl; [reflexivity|].
  destruct ev; simpl; rewrite IH; reflexivity.
Qed.

Lemma success_logs_app (t1 t2 : list event) :
  success_logs (t1 ++ t2) = success_logs t1 ++ success_logs t2.
Proof.
  induction t1 as [|ev t1 IH]; simpl; [reflexivity|].
  destruct ev as [[] []| | |]; simpl; rewrite IH; reflexivity.
Qed.

Lemma co2_requests (w : World) (self : EnergyDataCollector) (zone : string) :
  requests_made (trace (get_co2_intensity w self zone))
  = [HttpGet electricitymaps_url
             [("auth-token"%string, ELECTRICITYMAPS_API_KEY self)]
             [("zone"%string, Some zone)]] /\
  success_logs (trace (get_co2_intensity w self zone)) = [].
Proof.
  unfold get_co2_intensity, requests_get, raise_for_status, response_json, data_get.
  destruct (http w electricitymaps_url _ _) as [k|r]; [split; reflexivity|].
  simpl. destruct ((400 <=? status_code r) && (status_code r <? 600)); [split; reflexivity|].
  destruct (json r) as [[| | | | |d]|]; split; reflexivity.
Qed.

(** X15. [main] never raises and never collects. When the database answers
    the ping it logs the connection and stops there; when the ping fails it
    logs the failure twice, as a connection failure and as a script
    failure. *)
Theorem main_behaviour (w : World) :
  main w =
  match ping w with
  | None => ([Ping; Log INFO ConnectedToInfluxDB], Return tt)
  | Some e =>
      ([Ping; Log ERROR (InfluxDBConnectionFailed e); Log ERROR (ScriptExecutionFailed e)],
       Return tt)
  end.
Proof. unfold main, EnergyDataCollector_init. destruct (ping w); reflexivity. Qed.

Section MoreCollection.
Context {py : CPython}.

Lemma entsoe_requests (w : World) (self : EnergyDataCollector) (start end_ : datetime) :
  requests_made (trace (get_entsoe_load w self start end_))
  = [HttpGet entsoe_url [] (entsoe_params self start end_)] /\
  success_logs (trace (get_entsoe_load w self start end_)) = [].
Proof.
  unfold get_entsoe_load, requests_get, raise_for_status, ET_fromstring.
  destruct (http w entsoe_url [] (entsoe_params self start end_)) as [k|r];
    [split; reflexivity|].
  simpl. destruct ((400 <=? status_code r) && (status_code r <? 600)); [split; reflexivity|].
  destruct (xml r) as [root|]; [|split; reflexivity].
  simpl. destruct (load_points_of root) as [lps|[]]; split; reflexivity.
Qed.

(** X8. Each fetch makes exactly one request, whatever the reply: failures,
    error statuses and unreadable bodies are not retried. *)
Theorem one_request_per_fetch (w : World) (self : EnergyDataCollector)
    (start end_ : datetime) (zone : string) :
  requests_made (trace (get_entsoe_load w self start end_))
  = [HttpGet entsoe_url [] (entsoe_params self start end_)] /\
  requests_made (trace (get_co2_intensity w self zone))
  = [HttpGet electricitymaps_url
             [("auth-token"%string, ELECTRICITYMAPS_API_KEY self)]
             [("zone"%string, Some zone)]].
Proof.
  split; [apply entsoe_requests|apply co2_requests].
Qed.

Lemma store_facts (w : World) (points : list InfluxPoint) :
  requests_made (trace (store w points)) = [] /\
  writes (trace (store w points)) = match points with [] => [] | _ => [points] end /\
  success_logs (trace (store w points))
  = match points, write_points w points with
    | _ :: _, None => [List.length points]
    | _, _ => []
    end.
Proof.
  destruct points as [|point points]; [repeat split|].
  unfold store, influx_write_points.
  destruct (write_points w (point :: points)); repeat split.
Qed.

(** The run after the window: the events of the two fetches, then those of
    the composition and of the store. *)
Lemma run_unfolded (w : World) (self : EnergyDataCollector) (days_to_collect : Z)
    (start_utc end_utc : datetime) :
  window (now w) days_to_collect = Return (start_utc, end_utc) ->
  collect_and_store_data w self days_to_collect =
  let load := get_entsoe_load w self start_utc end_utc in
  let co2 := get_co2_intensity w self "DE" in
  let head := Log INFO (RequestingData start_utc end_utc) :: trace load in
  match result load with
  | Raise e => (head ++ [Log ERROR (DataCollectionFailed e)], Return tt)
  | Return load_data =>
      match result co2 with
      | Raise e => (head ++ trace co2 ++ [Log ERROR (DataCollectionFailed e)], Return tt)
      | Return co2_intensity =>
          match prepare_points load_data co2_intensity
                               (get_epex_prices start_utc end_utc) with
          | Raise e =>
              (head ++ trace co2 ++ [Log ERROR (DataCollectionFailed e)], Return tt)
          | Return points =>
              match result (store w points) with
              | Return _ => (head ++ trace co2 ++ trace (store w points), Return tt)
              | Raise e =>
                  (head ++ trace co2 ++ trace (store w points)
                   ++ [Log ERROR (DataCollectionFailed e)], Return tt)
              end
          end
      end
  end.
Proof.
  intros Hwindow. unfold collect_and_store_data. rewrite Hwindow. cbn [lift bind].
  unfold fetch_compose_write. cbv zeta.
  destruct (get_entsoe_load w self start_utc end_utc) as [t1 [load_data|e1]];
    [|simpl; now rewrite ?app_nil_r].
  destruct (get_co2_intensity w self "DE") as [t2 [co2|e2]];
    [|simpl; now rewrite <- ?app_assoc].
  cbn [bind lift trace result fst snd].
  destruct (prepare_points load_data co2 (get_epex_prices start_utc end_utc))
    as [points|e3]; [|simpl; now rewrite <- ?app_assoc, ?app_nil_r].
  change (match points with
          | [] => logger WARNING NoDataPointsToWrite
          | _ :: _ =>
              influx_write_points w points;;
              logger INFO (SuccessfullyWrote (Datatypes.length points))
          end) with (store w points).
  destruct (store w points) as [t3 [[]|e4]]; simpl;
    now rewrite <- ?app_assoc, ?app_nil_r.
Qed.

(** X9. A run asks ENTSO-E first, for the window it computed, and Electricity
    Maps second; when the load fetch raises, Electricity Maps is not asked
    at all. No other request is made. *)
Theorem run_requests (w : World) (self : EnergyDataCollector) (days_to_collect : Z)
    (start_utc end_utc : datetime) :
  window (now w) days_to_collect = Return (start_utc, end_utc) ->
  requests_made (trace (collect_and_store_data w self days_to_collect))
  = HttpGet entsoe_url [] (entsoe_params self start_utc end_utc)
    :: match result (get_entsoe_load w self start_utc end_utc) with
       | Return _ =>
           [HttpGet electricitymaps_url
                    [("auth-token"%string, ELECTRICITYMAPS_API_KEY self)]
                    [("zone"%string, Some "DE"%string)]]
       | Raise _ => []
       end.
Proof.
  intros Hwindow. rewrite (run_unfolded _ _ _ _ _ Hwindow). cbv zeta.
  destruct (entsoe_requests w self start_utc end_utc) as [R1 _].
  destruct (co2_requests w self "DE") as [R2 _].
  destruct (result (get_entsoe_load w self start_utc end_utc)) as [load_data|e1];
    [|unfold trace in *; cbn [fst]; rewrite <- app_comm_cons; cbn [requests_made];
      now rewrite requests_made_app, R1].
  destruct (result (get_co2_intensity w self "DE")) as [co2|e2];
    [|unfold trace in *; cbn [fst]; rewrite <- app_comm_cons; cbn [requests_made];
      now rewrite !requests_made_app, R1, R2].
  destruct (prepare_points load_data co2 (get_epex_prices start_utc end_utc))
    as [points|e3];
    [|unfold trace in *; cbn [fst]; rewrite <- app_comm_cons; cbn [requests_made];
      now rewrite !requests_made_app, R1, R2].
  destruct (store_facts w points) as [R3 _].
  destruct (result (store w points));
    unfold trace in *; cbn [fst]; rewrite <- app_comm_cons; cbn [requests_made];
    rewrite !requests_made_app, R1, R2, R3; reflexivity.
Qed.

(** X13. The line "Successfully wrote n data points" is logged exactly when
    a batch was handed to [write_points] and the call returned, and n is
    the size of that batch; a write that raises leaves no such line. *)
Theorem success_is_logged_after_the_write (w : World) (self : EnergyDataCollector)
    (days_to_collect : Z) (start_utc end_utc : datetime) :
  window (now w) days_to_collect = Return (start_utc, end_utc) ->
  success_logs (trace (collect_and_store_data w self days_to_collect))
  = match writes (trace (collect_and_store_data w self days_to_collect)) with
    | [batch] =>
        match write_points w batch with
        | None => [List.length batch]
        | Some _ => []
        end
    | _ => []
    end.
Proof.
  intros Hwindow. rewrite (run_unfolded _ _ _ _ _ Hwindow). cbv zeta.
  destruct (entsoe_requests w self start_utc end_utc) as [_ S1].
  destruct (co2_requests w self "DE") as [_ S2].
  pose proof (get_entsoe_load_writes w self start_utc end_utc) as W1.
  pose proof (get_co2_intensity_writes w self "DE") as W2.
  destruct (result (get_entsoe_load w self start_utc end_utc)) as [load_data|e1];
    [|unfold trace in *; cbn [fst]; rewrite <- app_comm_cons;
      cbn [writes success_logs]; rewrite writes_app, success_logs_app;
      now rewrite W1, S1].
  destruct (result (get_co2_intensity w self "DE")) as [co2|e2];
    [|unfold trace in *; cbn [fst]; rewrite <- app_comm_cons;
      cbn [writes success_logs]; rewrite !writes_app, !success_logs_app;
      now rewrite W1, S1, W2, S2].
  destruct (prepare_points load_data co2 (get_epex_prices start_utc end_utc))
    as [points|e3];
    [|unfold trace in *; cbn [fst]; rewrite <- app_comm_cons;
      cbn [writes success_logs]; rewrite !writes_app, !success_logs_app;
      now rewrite W1, S1, W2, S2].
  destruct (store_facts w points) as (_ & W3 & S3).
  destruct (result (store w points));
    unfold trace in *; cbn [fst]; rewrite <- app_comm_cons;
    cbn [writes success_logs]; rewrite !writes_app, !success_logs_app;
    rewrite W1, S1, W2, S2, W3, S3, ?app_nil_r;
    destruct points as [|point points]; simpl;
    try destruct (write_points w (point :: points)); reflexivity.
Qed.

(** X14. A write that raises does not stop the script: the batch was handed
    over once, the exception is logged as the failure of the run, and the
    run returns. *)
Theorem write_failure_is_logged (w : World) (self : EnergyDataCollector)
    (days_to_collect : Z) (start_utc end_utc : datetime) (load_data : list LoadPoint)
    (co2 : pyval) (point : InfluxPoint) (batch : list InfluxPoint) (e : exn) :
  window (now w) days_to_collect = Return (start_utc, end_utc) ->
  result (get_entsoe_load w self start_utc end_utc) = Return load_data ->
  result (get_co2_intensity w self "DE") = Return co2 ->
  prepare_points load_data co2 (get_epex_prices start_utc end_utc)
  = Return (point :: batch) ->
  write_points w (point :: batch) = Some e ->
  collect_and_store_data w self days_to_collect
  = (Log INFO (RequestingData start_utc end_utc)
     :: trace (get_entsoe_load w self start_utc end_utc)
     ++ trace (get_co2_intensity w self "DE")
     ++ [WritePoints (point :: batch); Log ERROR (DataCollectionFailed e)],
     Return tt).
Proof.
  intros Hwindow Hload Hco2 Hbatch Hwrite.
  rewrite (run_unfolded _ _ _ _ _ Hwindow). cbv zeta.
  rewrite Hload, Hco2, Hbatch. unfold store, influx_write_points. rewrite Hwrite.
  reflexivity.
Qed.

(** X12. With a database that accepts every write, a run whose [try] block
    raised has written nothing: the batch is stored whole or not at all. *)
Theorem failed_run_writes_nothing (w : World) (self : EnergyDataCollector)
    (start_utc end_utc : datetime) (e : exn) :
  (forall batch, write_points w batch = None) ->
  result (fetch_compose_write w self start_utc end_utc) = Raise e ->
  writes (trace (fetch_compose_write w self start_utc end_utc)) = [].
Proof.
  intros Hdb. unfold fetch_compose_write.
  pose proof (get_entsoe_load_writes w self start_utc end_utc) as W1.
  pose proof (get_co2_intensity_writes w self "DE") as W2.
  destruct (get_entsoe_load w self start_utc end_utc) as [t1 [load_data|e1]];
    [|intros _; exact W1].
  destruct (get_co2_intensity w self "DE") as [t2 [co2|e2]];
    simpl in W1, W2; cbn [bind lift];
    [|intros _; cbn; now rewrite writes_app, W1, W2].
  destruct (prepare_points load_data co2 (get_epex_prices start_utc end_utc))
    as [[|point batch]|e3]; cbn.
  - discriminate.
  - unfold influx_write_points. rewrite Hdb. cbn. discriminate.
  - intros _. now rewrite !writes_app, W1, W2.
Qed.

Lemma window_raises (today_utc : datetime) (days_to_collect : Z) (e : exn) :
  window today_utc days_to_collect = Raise e -> e = OverflowError.
Proof.
  assert (S : forall dt d e', sub_days dt d = Raise e' -> e' = OverflowError).
  { intros dt d e'. unfold sub_days, timedelta_days.
    destruct (999999999 <? Z.abs d); cbn [bindO]; [congruence|].
    destruct ((0 <? toordinal dt - d) && (toordinal dt - d <=? MAXORDINAL));
      [|congruence].
    destruct (ord2ymd (toordinal dt - d)) as [[y m] d']. discriminate. }
  unfold window.
  destruct (sub_days (replace_time today_utc 0 0 0 0) 1) as [end0|e0] eqn:E0; cbn [bindO].
  - destruct (sub_days _ (days_to_collect - 1)) as [start0|e1] eqn:E1; cbn [bindO];
      [discriminate|].
    intros [= <-]. exact (S _ _ _ E1).
  - intros [= <-]. exact (S _ _ _ E0).
Qed.

(** X16. The only exception that leaves [collect_and_store_data] is the
    [OverflowError] of the window, computed before the [try]; it leaves
    before anything is logged, requested or written. *)
Theorem only_overflow_escapes (w : World) (self : EnergyDataCollector)
    (days_to_collect : Z) (e : exn) :
  result (collect_and_store_data w self days_to_collect) = Raise e ->
  e = OverflowError /\
  window (now w) days_to_collect = Raise OverflowError /\
  collect_and_store_data w self days_to_collect = ([], Raise OverflowError).
Proof.
  destruct (window (now w) days_to_collect) as [[start_utc end_utc]|e0] eqn:Hwindow.
  - rewrite (run_unfolded _ _ _ _ _ Hwindow). cbv zeta.
    destruct (result (get_entsoe_load w self start_utc end_utc)); [|discriminate].
    destruct (result (get_co2_intensity w self "DE")); [|discriminate].
    destruct (prepare_points _ _ _); [|discriminate].
    destruct (result (store w a1)); discriminate.
  - pose proof (window_raises _ _ _ Hwindow) as ->.
    unfold collect_and_store_data. rewrite Hwindow. simpl.
    intros [= <-]. auto.
Qed.

(** ** The composition, input by input *)

Lemma for_load_raises (load : LoadPoint) (rest : list LoadPoint) (co2_intensity : pyval)
    (price_data : list PricePoint) (points : list InfluxPoint) (e : exn) :
  as_double co2_intensity = Raise e ->
  for_load (load :: rest) co2_intensity price_data points = Raise e.
Proof. intros H. simpl. unfold mul_float. now rewrite H. Qed.

(** X11. An intensity that is not a number ([None], a string, a list or a
    dict, as a JSON body may hold under [carbonIntensity]) makes the
    composition raise [TypeError] at the first load point. *)
Theorem non_numeric_intensity (load_data : list LoadPoint) (co2_intensity : pyval)
    (price_data : list PricePoint) :
  load_data <> [] ->
  match co2_intensity with
  | PyNone | PyStr _ | PyList _ | PyDict _ => True
  | PyBool _ | PyNum _ => False
  end ->
  prepare_points load_data co2_intensity price_data = Raise TypeError.
Proof.
  intros Hne Hco2. destruct load_data as [|load rest]; [congruence|].
  unfold prepare_points. apply for_load_raises.
  destruct co2_intensity; simpl; try contradiction; reflexivity.
Qed.

(** X10. In a run the default price 0 never serves: every record of a batch
    composed with the result of [get_epex_prices] stores the price 0.10 and
    has [cost_eur = energy_kwh * 0.10], whatever the window. *)
Theorem stub_price_everywhere (load_data : list LoadPoint) (co2_intensity : pyval)
    (start end_ : datetime) (points : list InfluxPoint) :
  prepare_points load_data co2_intensity (get_epex_prices start end_) = Return points ->
  List.length points = List.length load_data /\
  Forall (fun point =>
            stored_price_eur_kwh (fields point) = Float example_price /\
            cost_eur (fields point) = fmul (energy_kwh (fields point)) example_price)
         points.
Proof.
  intros Hpoints. destruct (as_double co2_intensity) as [c|e] eqn:Hc.
  - destruct (for_load_composed co2_intensity (get_epex_prices start end_)
                c example_price Hc eq_refl load_data []) as [new [E F]].
    unfold prepare_points in Hpoints. rewrite E in Hpoints. injection Hpoints as <-.
    split; [symmetry; exact (Forall2_length F)|].
    clear E. induction F as [|load point loads points Hh _ IH]; constructor; [|exact IH].
    destruct Hh as (_ & _ & _ & _ & Hcost & _ & Hprice). auto.
  - destruct load_data as [|load rest].
    + injection Hpoints as <-. split; [reflexivity|constructor].
    + unfold prepare_points in Hpoints.
      rewrite (for_load_raises _ _ _ _ _ _ Hc) in Hpoints. discriminate.
Qed.

(** X17. When Electricity Maps cannot be reached the run goes on with the
    intensity 0: the batch is composed and written, one record per load
    point, each storing the intensity 0 and, where its energy is finite, a
    [co2eq_g] of zero. *)
Theorem unreachable_intensity (w : World) (self : EnergyDataCollector)
    (days_to_collect : Z) (start_utc end_utc : datetime) (load_data : list LoadPoint)
    (k : request_failure) :
  window (now w) days_to_collect = Return (start_utc, end_utc) ->
  result (get_entsoe_load w self start_utc end_utc) = Return load_data ->
  load_data <> [] ->
  http w electricitymaps_url
       [("auth-token"%string, ELECTRICITYMAPS_API_KEY self)]
       [("zone"%string, Some "DE"%string)] = Failed k ->
  exists batch,
    writes (trace (collect_and_store_data w self days_to_collect)) = [batch] /\
    List.length batch = List.length load_data /\
    Forall (fun point =>
              co2_intensity (fields point) = PyNum (Int 0) /\
              (is_finite (energy_kwh (fields point)) = true ->
               is_zero (co2eq_g (fields point)) = true))
           batch.
Proof.
  intros Hwindow Hload Hne Hhttp.
  destruct (for_load_composed (PyNum (Int 0)) (get_epex_prices start_utc end_utc)
              (S754_zero false) example_price eq_refl eq_refl load_data [])
    as [batch [E F]].
  exists batch.
  assert (Hlen : List.length batch = List.length load_data)
    by (symmetry; exact (Forall2_length F)).
  split; [|split; [exact Hlen|]].
  - rewrite (run_unfolded _ _ _ _ _ Hwindow). cbv zeta. rewrite Hload.
    pose proof (get_entsoe_load_writes w self start_utc end_utc) as W1.
    assert (Hco2 : get_co2_intensity w self "DE"
                   = ([HttpGet electricitymaps_url
                               [("auth-token"%string, ELECTRICITYMAPS_API_KEY self)]
                               [("zone"%string, Some "DE"%string)];
                       Log ERROR (ElectricityMapsRequestFailed (RequestException k))],
                      Return (PyNum (Int 0)))).
    { unfold get_co2_intensity, requests_get. rewrite Hhttp. reflexivity. }
    rewrite Hco2. cbn [result snd trace fst].
    unfold prepare_points. rewrite E. cbn [app].
    destruct (store_facts w batch) as (_ & W3 & _).
    assert (Hbatch : batch <> []).
    { intros ->. destruct load_data; [congruence|discriminate]. }
    destruct (result (store w batch));
      unfold trace in *; cbn [fst app writes]; rewrite writes_app, W1;
      cbn [app writes]; rewrite ?writes_app, W3;
      destruct batch; simpl; congruence.
  - clear E Hlen Hne Hload. induction F as [|load point loads points Hh _ IH]; constructor.
    + destruct Hh as (_ & _ & _ & Hco2eq & _ & Hint & _). split; [exact Hint|].
      intros Hfin. rewrite Hco2eq. now apply fmul_zero.
    + exact IH.
Qed.

End MoreCollection.

(** ** The further properties on the example worlds *)

Lemma window_whole_days_witness :
  1 < toordinal demo_now <= MAXORDINAL + 1 /\
  1 <= 7 < toordinal demo_now /\
  exists start_utc end_utc,
    window demo_now 7 = Return (start_utc, end_utc) /\
    toordinal end_utc = toordinal demo_now - 1 /\
    toordinal end_utc - toordinal start_utc + 1 = 7 /\
    time_of start_utc = (0, 0, 0, 0) /\
    time_of end_utc = (23, 59, 59, 999999) /\
    utcoffset start_utc = utcoffset demo_now /\
    utcoffset end_utc = utcoffset demo_now.
Proof.
  assert (H1 : 1 < toordinal demo_now <= MAXORDINAL + 1) by (vm_compute; split; easy).
  assert (H2 : 1 <= 7 < toordinal demo_now) by (vm_compute; split; easy).
  split; [exact H1|]. split; [exact H2|].
  exact (window_whole_days demo_now 7 H1 H2).
Defined.


Lemma window_out_of_range_witness :
  1 < toordinal demo_now <= MAXORDINAL + 1 /\
  ~ (0 < toordinal demo_now - 1000000 <= MAXORDINAL) /\
  window demo_now 1000000 = Raise OverflowError.
Proof.
  assert (H1 : 1 < toordinal demo_now <= MAXORDINAL + 1) by (vm_compute; split; easy).
  assert (H2 : ~ (0 < toordinal demo_now - 1000000 <= MAXORDINAL))
    by (vm_compute; intros [H _]; discriminate H).
  split; [exact H1|]. split; [exact H2|].
  exact (window_out_of_range demo_now 1000000 H1 H2).
Defined.

Lemma load_fetch_request_failure_witness :
  http unreachable_world entsoe_url [] (entsoe_params demo_collector demo_start demo_end)
  = Failed ConnectionError /\
  get_entsoe_load (py := Reference.builtins) unreachable_world demo_collector
                  demo_start demo_end
  = ([Log INFO (MakingEntsoeRequest (entsoe_params demo_collector demo_start demo_end));
      HttpGet entsoe_url [] (entsoe_params demo_collector demo_start demo_end);
      Log ERROR (EntsoeRequestFailed (RequestException ConnectionError))],
     Return []).
Proof.
  split; [reflexivity|].
  exact (load_fetch_request_failure (py := Reference.builtins) unreachable_world
           demo_collector demo_start demo_end ConnectionError eq_refl).
Defined.

Lemma load_fetch_error_status_witness :
  http forbidden_world entsoe_url [] (entsoe_params demo_collector demo_start demo_end)
  = Answered forbidden_response /\
  400 <= status_code forbidden_response < 600 /\
  get_entsoe_load (py := Reference.builtins) forbidden_world demo_collector
                  demo_start demo_end
  = ([Log INFO (MakingEntsoeRequest (entsoe_params demo_collector demo_start demo_end));
      HttpGet entsoe_url [] (entsoe_params demo_collector demo_start demo_end);
      Log INFO (ResponseStatus (status_code forbidden_response));
      Log INFO RequestURL;
      Log ERROR (EntsoeRequestFailed
                   (RequestException (HTTPError (status_code forbidden_response))))],
     Return []).
Proof.
  assert (H : 400 <= status_code forbidden_response < 600) by (vm_compute; split; easy).
  split; [reflexivity|]. split; [exact H|].
  exact (load_fetch_error_status (py := Reference.builtins) forbidden_world
           demo_collector demo_start demo_end forbidden_response eq_refl H).
Defined.

Lemma load_points_per_visited_period_witness :
  load_points_of (py := Reference.builtins) two_period_document = Return demo_load_data /\
  Forall2 (fun pp lp => load_point_at (py := Reference.builtins) (fst pp) (snd pp) lp)
          (flat_map (fun period => map (pair period) (findall "Point" period))
                    (visited_periods two_period_document))
          demo_load_data.
Proof.
  split; [reflexivity|].
  exact (load_points_per_visited_period (py := Reference.builtins)
           two_period_document demo_load_data eq_refl).
Defined.

Lemma run_requests_witness :
  window (now demo_world) 7 = Return (demo_start, demo_end) /\
  requests_made (trace (collect_and_store_data (py := Reference.builtins)
                          demo_world demo_collector 7))
  = HttpGet entsoe_url [] (entsoe_params demo_collector demo_start demo_end)
    :: match result (get_entsoe_load (py := Reference.builtins)
                       demo_world demo_collector demo_start demo_end) with
       | Return _ =>
           [HttpGet electricitymaps_url
                    [("auth-token"%string, ELECTRICITYMAPS_API_KEY demo_collector)]
                    [("zone"%string, Some "DE"%string)]]
       | Raise _ => []
       end.
Proof.
  split; [reflexivity|].
  exact (run_requests (py := Reference.builtins) demo_world demo_collector 7
           demo_start demo_end eq_refl).
Defined.

Lemma stub_price_everywhere_witness :
  prepare_points demo_load_data (PyNum (Float f400)) (get_epex_prices demo_start demo_end)
  = Return demo_batch /\
  List.length demo_batch = List.length demo_load_data /\
  Forall (fun point =>
            stored_price_eur_kwh (fields point) = Float example_price /\
            cost_eur (fields point) = fmul (energy_kwh (fields point)) example_price)
         demo_batch.
Proof.
  split; [reflexivity|].
  exact (stub_price_everywhere demo_load_data (PyNum (Float f400)) demo_start demo_end
           demo_batch eq_refl).
Defined.

Lemma non_numeric_intensity_witness :
  demo_load_data <> [] /\
  prepare_points demo_load_data PyNone (get_epex_prices demo_start demo_end)
  = Raise TypeError.
Proof.
  assert (H : demo_load_data <> []) by (vm_compute; discriminate).
  split; [exact H|].
  exact (non_numeric_intensity demo_load_data PyNone
           (get_epex_prices demo_start demo_end) H I).
Defined.

Lemma failed_run_writes_nothing_witness :
  (forall batch, write_points null_intensity_world batch = None) /\
  result (fetch_compose_write (py := Reference.builtins) null_intensity_world
            demo_collector demo_start demo_end) = Raise TypeError /\
  writes (trace (fetch_compose_write (py := Reference.builtins) null_intensity_world
                   demo_collector demo_start demo_end)) = [].
Proof.
  assert (H : forall batch, write_points null_intensity_world batch = None)
    by (intros batch; reflexivity).
  split; [exact H|]. split; [reflexivity|].
  exact (failed_run_writes_nothing (py := Reference.builtins) null_intensity_world
           demo_collector demo_start demo_end TypeError H eq_refl).
Defined.

Lemma success_is_logged_after_the_write_witness :
  window (now demo_world) 7 = Return (demo_start, demo_end) /\
  success_logs (trace (collect_and_store_data (py := Reference.builtins)
                         demo_world demo_collector 7))
  = match writes (trace (collect_and_store_data (py := Reference.builtins)
                           demo_world demo_collector 7)) with
    | [batch] =>
        match write_points demo_world batch with
        | None => [List.length batch]
        | Some _ => []
        end
    | _ => []
    end.
Proof.
  split; [reflexivity|].
  exact (success_is_logged_after_the_write (py := Reference.builtins) demo_world
           demo_collector 7 demo_start demo_end eq_refl).
Defined.

Lemma write_failure_is_logged_witness :
  window (now read_only_world) 7 = Return (demo_start, demo_end) /\
  result (get_entsoe_load (py := Reference.builtins) read_only_world demo_collector
            demo_start demo_end) = Return demo_load_data /\
  result (get_co2_intensity read_only_world demo_collector "DE")
  = Return (PyNum (Float f400)) /\
  prepare_points demo_load_data (PyNum (Float f400)) (get_epex_prices demo_start demo_end)
  = Return (demo_batch_head :: demo_batch_tail) /\
  write_points read_only_world (demo_batch_head :: demo_batch_tail)
  = Some (ClientError "read only") /\
  collect_and_store_data (py := Reference.builtins) read_only_world demo_collector 7
  = (Log INFO (RequestingData demo_start demo_end)
     :: trace (get_entsoe_load (py := Reference.builtins) read_only_world demo_collector
                 demo_start demo_end)
     ++ trace (get_co2_intensity read_only_world demo_collector "DE")
     ++ [WritePoints (demo_batch_head :: demo_batch_tail);
         Log ERROR (DataCollectionFailed (ClientError "read only"))],
     Return tt).
Proof.
  split; [reflexivity|]. split; [reflexivity|]. split; [reflexivity|].
  split; [reflexivity|]. split; [reflexivity|].
  exact (write_failure_is_logged (py := Reference.builtins) read_only_world
           demo_collector 7 demo_start demo_end demo_load_data (PyNum (Float f400))
           demo_batch_head demo_batch_tail (ClientError "read only")
           eq_refl eq_refl eq_refl eq_refl eq_refl).
Defined.

Lemma only_overflow_escapes_witness :
  result (collect_and_store_data (py := Reference.builtins)
            demo_world demo_collector 1000000) = Raise OverflowError /\
  OverflowError = OverflowError /\
  window (now demo_world) 1000000 = Raise OverflowError /\
  collect_and_store_data (py := Reference.builtins) demo_world demo_collector 1000000
  = ([], Raise OverflowError).
Proof.
  split; [reflexivity|].
  exact (only_overflow_escapes (py := Reference.builtins) demo_world demo_collector
           1000000 OverflowError eq_refl).
Defined.

Lemma unreachable_intensity_witness :
  window (now no_intensity_world) 7 = Return (demo_start, demo_end) /\
  result (get_entsoe_load (py := Reference.builtins) no_intensity_world demo_collector
            demo_start demo_end) = Return demo_load_data /\
  demo_load_data <> [] /\
  http no_intensity_world electricitymaps_url
       [("auth-token"%string, ELECTRICITYMAPS_API_KEY demo_collector)]
       [("zone"%string, Some "DE"%string)] = Failed Timeout /\
  exists batch,
    writes (trace (collect_and_store_data (py := Reference.builtins)
                     no_intensity_world demo_collector 7)) = [batch] /\
    List.length batch = List.length demo_load_data /\
    Forall (fun point =>
              co2_intensity (fields point) = PyNum (Int 0) /\
              (is_finite (energy_kwh (fields point)) = true ->
               is_zero (co2eq_g (fields point)) = true))
           batch.
Proof.
  assert (H : demo_load_data <> []) by (vm_compute; discriminate).
  split; [reflexivity|]. split; [reflexivity|]. split; [exact H|]. split; [reflexivity|].
  exact (unreachable_intensity (py := Reference.builtins) no_intensity_world
           demo_collector 7 demo_start demo_end demo_load_data Timeout
           eq_refl eq_refl H eq_refl).
Defined.
